(** * VoltageData: a shallow embedding of [src/main.py]

    The class [VoltageData] stores a table of (time, voltage[, error]) rows in
    a two-dimensional numpy array, reads it from a tab separated text file and
    builds a cubic spline on request.

    Conventions of the embedding.
    - A Python [str] is a Rocq [string]; a character is a code point below 256.
    - Python exceptions are values of [exn]; a computation that may raise
      returns a [res].  Code that mutates local lists or prints runs in the
      monad [M St], whose state survives a raise (as the lists [t] and [v] of
      [from_file] survive the [ValueError] of the third field).
    - The standard output is the list of the texts written by the successive
      [print] calls, oldest first.
    - Builtins that are not part of the repository ([float], number
      formatting, scipy's spline, matplotlib's axes) are section variables;
      [PyFloat] gives a concrete reading of [float] for the examples. *)

From Stdlib Require Import String Ascii List ZArith Lia Bool DecimalString.
Import ListNotations.
Open Scope string_scope.

(** ** Exceptions and results *)

Inductive exn : Type :=
| IndexError (msg : string)
| ValueError (msg : string)
| TypeError (msg : string)
| AttributeError (msg : string)
| OverflowError (msg : string).

Inductive res (A : Type) : Type :=
| Ok (a : A)
| Raise (e : exn).

Arguments Ok {A} a.
Arguments Raise {A} e.

Definition rbind {A B : Type} (c : res A) (k : A -> res B) : res B :=
  match c with
  | Ok a => k a
  | Raise e => Raise e
  end.

(** [str(e)] of an exception built from one message. *)
Definition exn_str (e : exn) : string :=
  match e with
  | IndexError m | ValueError m | TypeError m | AttributeError m
  | OverflowError m => m
  end.

(** The process-wide effects: what was printed, and the calls made to
    [matplotlib.pyplot], both oldest first. *)
Record proc (P : Type) : Type := mkProc { stdout : list string; pyplot : list P }.

Arguments mkProc {P} stdout pyplot.
Arguments stdout {P} p.
Arguments pyplot {P} p.

(** State [St] (local variables, or [self]), process effects and exceptions. *)
Definition M (P St A : Type) : Type := St -> proc P -> res A * St * proc P.

Definition ret {P St A : Type} (a : A) : M P St A :=
  fun s p => (Ok a, s, p).

Definition bind {P St A B : Type} (c : M P St A) (k : A -> M P St B) : M P St B :=
  fun s p =>
    match c s p with
    | (Ok a, s', p') => k a s' p'
    | (Raise e, s', p') => (Raise e, s', p')
    end.

Definition lift {P St A : Type} (r : res A) : M P St A :=
  fun s p => (r, s, p).

Definition get {P St : Type} : M P St St :=
  fun s p => (Ok s, s, p).

Definition modify {P St : Type} (f : St -> St) : M P St unit :=
  fun s p => (Ok tt, f s, p).

(** [try: c except ...: h e]: the handler runs in the state the body left. *)
Definition try_except {P St A : Type} (c : M P St A) (h : exn -> M P St A) : M P St A :=
  fun s p =>
    match c s p with
    | (Ok a, s', p') => (Ok a, s', p')
    | (Raise e, s', p') => h e s' p'
    end.

Definition tab : ascii := "009"%char.
Definition newline : string := String "010" "".

(** [print(text)]: writes [text] and a newline. *)
Definition print {P St : Type} (text : string) : M P St unit :=
  fun s p => (Ok tt, s, mkProc (stdout p ++ [text ++ newline]) (pyplot p)).

Definition plt {P St : Type} (call : P) : M P St unit :=
  fun s p => (Ok tt, s, mkProc (stdout p) (pyplot p ++ [call])).

Declare Scope py_scope.
Delimit Scope py_scope with py.

Notation "x <- c ;; k" := (bind c (fun x => k))
  (at level 61, c at next level, right associativity) : py_scope.
Notation "c ;; k" := (bind c (fun _ => k))
  (at level 61, right associativity) : py_scope.
Notation "x <~ c ;; k" := (rbind c (fun x => k))
  (at level 61, c at next level, right associativity) : py_scope.

Open Scope py_scope.

(** ** The [str] and [list] operations the program uses *)

(** [str.isspace] on one character, for code points below 256. *)
Definition isspace (c : ascii) : bool :=
  let n := nat_of_ascii c in
  (((9 <=? n) && (n <=? 13)) || ((28 <=? n) && (n <=? 32))
   || (n =? 133) || (n =? 160))%nat.

Fixpoint lstrip_by (p : ascii -> bool) (s : string) : string :=
  match s with
  | EmptyString => EmptyString
  | String c r => if p c then lstrip_by p r else s
  end.

Fixpoint rstrip_by (p : ascii -> bool) (s : string) : string :=
  match s with
  | EmptyString => EmptyString
  | String c r =>
      match rstrip_by p r with
      | EmptyString => if p c then EmptyString else String c EmptyString
      | r' => String c r'
      end
  end.

Fixpoint mem_char (c : ascii) (chars : string) : bool :=
  match chars with
  | EmptyString => false
  | String d r => Ascii.eqb c d || mem_char c r
  end.

(** [s.strip()] *)
Definition strip (s : string) : string :=
  rstrip_by isspace (lstrip_by isspace s).

(** [s.strip(chars)] *)
Definition strip_chars (chars s : string) : string :=
  rstrip_by (fun c => mem_char c chars) (lstrip_by (fun c => mem_char c chars) s).

(** [s.split(sep)] for a separator of one character: always at least one
    field, and an empty field between two adjacent separators. *)
Fixpoint split (sep : ascii) (s : string) : list string :=
  match s with
  | EmptyString => [EmptyString]
  | String c r =>
      if Ascii.eqb c sep then EmptyString :: split sep r
      else
        match split sep r with
        | f :: fs => String c f :: fs
        | [] => [String c EmptyString]
        end
  end.

(** [s.startswith(p)] *)
Definition startswith (p s : string) : bool := String.prefix p s.

(** [sep.join(parts)] *)
Definition join (sep : string) (parts : list string) : string :=
  String.concat sep parts.

(** [str(n)] for a non-negative [int]. *)
Definition str_nat (n : nat) : string :=
  NilZero.string_of_uint (Nat.to_uint n).

(** An integer index into a sequence of length [len]: a negative index counts
    from the end; [None] when it is out of range. *)
Definition norm_index (len : nat) (i : Z) : option nat :=
  let j := if (i <? 0)%Z then (i + Z.of_nat len)%Z else i in
  if ((0 <=? j) && (j <? Z.of_nat len))%Z then Some (Z.to_nat j) else None.

(** An [int] that fits a C [long], which is also the index type
    [Py_ssize_t]: [-2^63 <= i < 2^63]. *)
Definition fits_c_long (i : Z) : bool :=
  ((-9223372036854775808 <=? i) && (i <? 9223372036854775808))%Z.

(** The [IndexError] of a list index: out of range, or too large to be an
    index at all. *)
Definition list_index_error (i : Z) : exn :=
  IndexError (if fits_c_long i then "list index out of range"
              else "cannot fit 'int' into an index-sized integer").

(** [l[i]] on a Python [list]. *)
Definition list_getitem {A : Type} (l : list A) (i : Z) : res A :=
  match norm_index (length l) i with
  | Some k =>
      match nth_error l k with
      | Some x => Ok x
      | None => Raise (list_index_error i)
      end
  | None => Raise (list_index_error i)
  end.

(** The elements of [l] at the positions [ks], in the order of [ks]. *)
Definition select {A : Type} (ks : list nat) (l : list A) : list A :=
  flat_map (fun k => match nth_error l k with Some x => [x] | None => [] end) ks.

(** The positions a slice [start:stop:step] selects in a sequence of length
    [len] (CPython's [PySlice_AdjustIndices]). *)
Definition slice_bound (len : nat) (neg_step : bool) (b : Z) : Z :=
  let n := Z.of_nat len in
  if (b <? 0)%Z then
    let b' := (b + n)%Z in
    if (b' <? 0)%Z then (if neg_step then (-1)%Z else 0%Z) else b'
  else if (n <=? b)%Z then (if neg_step then (n - 1)%Z else n)
  else b.

Definition slice_indices (len : nat) (start stop step : option Z) : res (list nat) :=
  let st := match step with Some s => s | None => 1%Z end in
  if (st =? 0)%Z then Raise (ValueError "slice step cannot be zero")
  else
    let neg := (st <? 0)%Z in
    let n := Z.of_nat len in
    let lo := match start with
              | Some b => slice_bound len neg b
              | None => if neg then (n - 1)%Z else 0%Z
              end in
    let hi := match stop with
              | Some b => slice_bound len neg b
              | None => if neg then (-1)%Z else n
              end in
    let count :=
      if neg then
        (if (hi <? lo)%Z then ((lo - hi - 1) / (- st) + 1)%Z else 0%Z)
      else
        (if (lo <? hi)%Z then ((hi - lo - 1) / st + 1)%Z else 0%Z) in
    Ok (map (fun k => Z.to_nat (lo + Z.of_nat k * st)) (seq 0 (Z.to_nat count))).

(** ** A concrete reading of the builtin [float] on strings

    [float(s)] accepts, between optional white space, an optional sign followed
    by [inf], [infinity] or [nan] in any letter case, or by a decimal number
    with an optional exponent, where single underscores may separate digits.
    The value is kept as the decimal that was read: rounding to binary64 plays
    no part in what the program does with it. *)
Module PyFloat.

Inductive pyfloat : Type :=
| Finite (neg : bool) (mant : N) (exp10 : Z)
| Inf (neg : bool)
| NaN.

Definition is_digit (c : ascii) : bool :=
  let n := nat_of_ascii c in ((48 <=? n) && (n <=? 57))%nat.

Definition lower_char (c : ascii) : ascii :=
  let n := nat_of_ascii c in
  if ((65 <=? n) && (n <=? 90))%nat then ascii_of_nat (n + 32) else c.

Fixpoint lower (s : string) : string :=
  match s with
  | EmptyString => EmptyString
  | String c r => String (lower_char c) (lower r)
  end.

(** The tail [(["_"] digit)*] of a digit part: the digits read, and the rest. *)
Fixpoint digits_more (s : string) : string * string :=
  match s with
  | EmptyString => (EmptyString, EmptyString)
  | String c r =>
      if is_digit c then
        let '(d, rest) := digits_more r in (String c d, rest)
      else if Ascii.eqb c "_" then
        match r with
        | String c2 r2 =>
            if is_digit c2 then
              let '(d, rest) := digits_more r2 in (String c2 d, rest)
            else (EmptyString, s)
        | EmptyString => (EmptyString, s)
        end
      else (EmptyString, s)
  end.

(** [digit (["_"] digit)*], or nothing read when [s] starts with no digit. *)
Definition digitpart (s : string) : string * string :=
  match s with
  | EmptyString => (EmptyString, EmptyString)
  | String c r =>
      if is_digit c then
        let '(d, rest) := digits_more r in (String c d, rest)
      else (EmptyString, s)
  end.

Fixpoint digits_value (acc : N) (d : string) : N :=
  match d with
  | EmptyString => acc
  | String c r => digits_value (acc * 10 + N.of_nat (nat_of_ascii c - 48)) r
  end.

Definition is_empty (s : string) : bool :=
  match s with EmptyString => true | _ => false end.

Definition parse_sign (s : string) : bool * string :=
  match s with
  | String c r =>
      if Ascii.eqb c "-" then (true, r)
      else if Ascii.eqb c "+" then (false, r)
      else (false, s)
  | EmptyString => (false, s)
  end.

(** What follows the number: nothing, or a whole exponent. *)
Definition parse_exponent (s : string) : option Z :=
  match s with
  | EmptyString => Some 0%Z
  | String c r =>
      if Ascii.eqb (lower_char c) "e" then
        let '(neg, r1) := parse_sign r in
        let '(d, r2) := digitpart r1 in
        if is_empty d || negb (is_empty r2) then None
        else
          let e := Z.of_N (digits_value 0 d) in
          Some (if neg then (- e)%Z else e)
      else None
  end.

Definition parse_number (s : string) : option (N * Z) :=
  let '(ip, r1) := digitpart s in
  let dot :=
    match r1 with
    | String c r2 => if Ascii.eqb c "." then Some r2 else None
    | EmptyString => None
    end in
  match dot with
  | Some r2 =>
      let '(fp, r3) := digitpart r2 in
      if is_empty ip && is_empty fp then None
      else
        match parse_exponent r3 with
        | Some e => Some (digits_value 0 (ip ++ fp), (e - Z.of_nat (String.length fp))%Z)
        | None => None
        end
  | None =>
      if is_empty ip then None
      else
        match parse_exponent r1 with
        | Some e => Some (digits_value 0 ip, e)
        | None => None
        end
  end.

(** The white space [float] strips around the number: that of C's [isspace]
    and, beyond ASCII, that of [str.isspace]; the separators [0x1c]-[0x1f],
    which [str.strip] removes, are not part of it. *)
Definition float_space (c : ascii) : bool :=
  let n := nat_of_ascii c in
  (((9 <=? n) && (n <=? 13)) || (n =? 32) || (n =? 133) || (n =? 160))%nat.

Definition float_strip (s : string) : string :=
  rstrip_by float_space (lstrip_by float_space s).

Definition parse (s : string) : option pyfloat :=
  let '(neg, r) := parse_sign (float_strip s) in
  let w := lower r in
  if String.eqb w "inf" || String.eqb w "infinity" then Some (Inf neg)
  else if String.eqb w "nan" then Some NaN
  else
    match parse_number r with
    | Some (m, e) => Some (Finite neg m e)
    | None => None
    end.

(** [repr(s)] of a string, which the error message of [float] quotes. *)
Definition dquote : ascii := "034"%char.
Definition squote : ascii := "039"%char.
Definition backslash : ascii := "092"%char.

Definition hex_digit (n : nat) : ascii :=
  if (n <? 10)%nat then ascii_of_nat (48 + n) else ascii_of_nat (87 + n).

Definition printable (c : ascii) : bool :=
  let n := nat_of_ascii c in
  negb ((n <? 32) || (n =? 127) || ((128 <=? n) && (n <=? 160)) || (n =? 173))%nat.

Definition escape_char (quote c : ascii) : string :=
  if Ascii.eqb c quote || Ascii.eqb c backslash then String backslash (String c "")
  else if Ascii.eqb c "009" then String backslash "t"
  else if Ascii.eqb c "010" then String backslash "n"
  else if Ascii.eqb c "013" then String backslash "r"
  else if printable c then String c ""
  else
    let n := nat_of_ascii c in
    String backslash (String "x" (String (hex_digit (n / 16)) (String (hex_digit (n mod 16)) ""))).

Fixpoint escape (quote : ascii) (s : string) : string :=
  match s with
  | EmptyString => EmptyString
  | String c r => escape_char quote c ++ escape quote r
  end.

Definition repr (s : string) : string :=
  let quote := if mem_char squote s && negb (mem_char dquote s) then dquote else squote in
  String quote (escape quote s ++ String quote "").

(** [float(s)]: the value, or the message of the [ValueError]. *)
Definition float (s : string) : pyfloat + string :=
  match parse s with
  | Some x => inl x
  | None => inr ("could not convert string to float: " ++ repr s)
  end.

(** [float(n)] for a non-negative [int]. *)
Definition of_nat (n : nat) : pyfloat := Finite false (N.of_nat n) 0.

(** A text for a value, in the form mantissa, [e], exponent. *)
Definition show (x : pyfloat) : string :=
  match x with
  | Finite neg m e =>
      (if neg then "-" else "") ++ str_nat (N.to_nat m) ++ "e"
      ++ (if (e <? 0)%Z then "-" else "") ++ str_nat (Z.abs_nat e)
  | Inf neg => (if neg then "-" else "") ++ "inf"
  | NaN => "nan"
  end.

End PyFloat.

(** ** The class [VoltageData] *)
Section VoltageData.

(** A [float64] cell, and the builtin [float] on a string: the value, or the
    message of the [ValueError] it raises. *)
Variable F : Type.
Variable float : string -> F + string.

Definition to_float (s : string) : res F :=
  match float s with
  | inl x => Ok x
  | inr m => Raise (ValueError m)
  end.

(** *** numpy arrays of one and two dimensions *)

(** A two-dimensional array of shape [(length rows, ncols)]. *)
Record ndarray : Type := mk_ndarray { ncols : nat; rows : list (list F) }.

Definition shape (a : ndarray) : nat * nat := (length (rows a), ncols a).

(** Every row has [ncols] cells. *)
Definition rectangular (a : ndarray) : Prop :=
  Forall (fun r => length r = ncols a) (rows a).

Inductive value : Type :=
| Scalar (x : F)
| Array1 (xs : list F)
| Array2 (a : ndarray).

(** [np.array(l, dtype="float64")] on a sequence of floats. *)
Definition np_array (l : list F) : value := Array1 l.

(** [np.column_stack] first turns what has fewer than two dimensions into
    columns. *)
Definition as_columns (x : value) : ndarray :=
  match x with
  | Scalar a => mk_ndarray 1 [[a]]
  | Array1 xs => mk_ndarray 1 (map (fun a => [a]) xs)
  | Array2 a => a
  end.

(** [np.column_stack((x, y))]: the columns of [x] then those of [y]; the row
    counts must agree. *)
Definition column_stack (x y : value) : res ndarray :=
  let a := as_columns x in
  let b := as_columns y in
  if (length (rows a) =? length (rows b))%nat then
    Ok (mk_ndarray (ncols a + ncols b)
          (map (fun rr => (fst rr ++ snd rr)%list) (combine (rows a) (rows b))))
  else
    Raise (ValueError
      ("all the input array dimensions except for the concatenation axis must match exactly, "
       ++ "but along dimension 0, the array at index 0 has size "
       ++ str_nat (length (rows a)) ++ " and the array at index 1 has size "
       ++ str_nat (length (rows b)))).

(** One component of an index: an integer or a slice. *)
Inductive idx : Type :=
| Int (i : Z)
| Slice (start stop step : option Z).

(** [a[r]] and [a[r, c]]. *)
Inductive index : Type :=
| Index1 (r : idx)
| Index2 (r c : idx).

Definition str_Z (i : Z) : string :=
  if (i <? 0)%Z then "-" ++ str_nat (Z.abs_nat i) else str_nat (Z.abs_nat i).

Definition axis_error (i : Z) (axis size : nat) : exn :=
  IndexError ("index " ++ str_Z i ++ " is out of bounds for axis " ++ str_nat axis
              ++ " with size " ++ str_nat size).

Definition axis_int (axis size : nat) (i : Z) : res nat :=
  match norm_index size i with
  | Some k => Ok k
  | None => Raise (axis_error i axis size)
  end.

Definition row_at (a : ndarray) (i : Z) : res (list F) :=
  k <~ axis_int 0 (length (rows a)) i ;;
  match nth_error (rows a) k with
  | Some r => Ok r
  | None => Raise (axis_error i 0 (length (rows a)))
  end.

Definition rows_in (a : ndarray) (start stop step : option Z) : res (list (list F)) :=
  ks <~ slice_indices (length (rows a)) start stop step ;;
  Ok (select ks (rows a)).

(** Indexing once every integer of the index is known to fit a C [long]. *)
Definition basic_getitem (a : ndarray) (ix : index) : res value :=
  match ix with
  | Index1 (Int i) =>
      r <~ row_at a i ;; Ok (Array1 r)
  | Index1 (Slice s e st) =>
      rs <~ rows_in a s e st ;; Ok (Array2 (mk_ndarray (ncols a) rs))
  | Index2 (Int i) (Int j) =>
      r <~ row_at a i ;;
      k <~ axis_int 1 (ncols a) j ;;
      match nth_error r k with
      | Some x => Ok (Scalar x)
      | None => Raise (axis_error j 1 (ncols a))
      end
  | Index2 (Int i) (Slice s e st) =>
      r <~ row_at a i ;;
      ks <~ slice_indices (ncols a) s e st ;;
      Ok (Array1 (select ks r))
  | Index2 (Slice s e st) (Int j) =>
      rs <~ rows_in a s e st ;;
      k <~ axis_int 1 (ncols a) j ;;
      Ok (Array1 (flat_map (select [k]) rs))
  | Index2 (Slice s e st) (Slice s' e' st') =>
      rs <~ rows_in a s e st ;;
      ks <~ slice_indices (ncols a) s' e' st' ;;
      Ok (Array2 (mk_ndarray (length ks) (map (select ks) rs)))
  end.

Definition idx_fits (r : idx) : bool :=
  match r with
  | Int i => fits_c_long i
  | Slice _ _ _ => true
  end.

Definition index_fits (ix : index) : bool :=
  match ix with
  | Index1 r => idx_fits r
  | Index2 r c => idx_fits r && idx_fits c
  end.

(** Basic indexing of a two-dimensional array, with integers and slices; the
    arrays numpy returns are views, here they are values.  numpy converts
    every integer of the index to a C [long] before it looks at the array,
    and an integer that does not fit raises [OverflowError] whatever else is
    wrong with the index (slice bounds are clipped instead).  An axis is
    shorter than [2^63], so an index within its axis always fits: when the
    indexing succeeds the conversion has succeeded before it, and the
    conversion is looked at when the indexing fails. *)
Definition ndarray_getitem (a : ndarray) (ix : index) : res value :=
  match basic_getitem a ix with
  | Ok x => Ok x
  | Raise e =>
      Raise (if index_fits ix then e
             else OverflowError "Python int too large to convert to C long")
  end.

(** The whole axis, [:]. *)
Definition all : idx := Slice None None None.

(** Iterating an array, as the unpacking [*row] does. *)
Definition iter_value (x : value) : res (list value) :=
  match x with
  | Scalar _ => Raise (TypeError "iteration over a 0-d array")
  | Array1 xs => Ok (map Scalar xs)
  | Array2 a => Ok (map Array1 (rows a))
  end.

(** *** String formatting *)

(** An argument of [str.format]: an [int] or an array value. *)
Inductive pyarg : Type :=
| AInt (n : nat)
| AVal (x : value).

(** The builtin [format(x, spec)]. *)
Variable format : string -> pyarg -> res string.

(** A format string: literal text and replacement fields [{:spec}]. *)
Inductive seg : Type :=
| Lit (s : string)
| Field (spec : string).

(** [fmt.format( *args)]: the fields take the arguments in order; [k] fields
    have been filled so far. *)
Fixpoint str_format_from (k : nat) (fmt : list seg) (args : list pyarg) : res string :=
  match fmt with
  | [] => Ok EmptyString
  | Lit s :: rest =>
      r <~ str_format_from k rest args ;; Ok (s ++ r)
  | Field spec :: rest =>
      match args with
      | [] => Raise (IndexError ("Replacement index " ++ str_nat k
                                 ++ " out of range for positional args tuple"))
      | a :: args' =>
          x <~ format spec a ;;
          r <~ str_format_from (S k) rest args' ;;
          Ok (x ++ r)
      end
  end.

Definition str_format (fmt : list seg) (args : list pyarg) : res string :=
  str_format_from 0 fmt args.

(** [sep.join(pieces)] at the level of format strings. *)
Fixpoint join_segs (sep : string) (pieces : list seg) : list seg :=
  match pieces with
  | [] => []
  | [p] => [p]
  | p :: rest => p :: Lit sep :: join_segs sep rest
  end.

(** *** scipy and matplotlib *)

Variable Spline : Type.
Variable InterpolatedUnivariateSpline : value -> value -> nat -> res Spline.
Variable spline_call : Spline -> value -> res value.
Variable Axes : Type.

(** The calls the program makes to [matplotlib.pyplot]. *)
Inductive plt_call : Type :=
| plt_sca (ax : Axes)
| plt_figure (num : string)
| plt_plot (x y : value) (fmt : option string) (label : option string)
| plt_legend
| plt_title (s : string)
| plt_xlabel (s : string)
| plt_ylabel (s : string)
| plt_grid (b : bool).

(** What [plot] returns: the axes it was given, or the figure it created. *)
Inductive axes_ref : Type :=
| GivenAxes (ax : Axes)
| NewFigure (num : string).

(** *** The container *)

Record VoltageData : Type := mk_VoltageData { _data : ndarray }.

(** A method: [self] is the state. *)
Definition Meth (A : Type) : Type := M plt_call VoltageData A.

(** [VoltageData(times, voltages, voltage_errors)], on sequences of floats as
    the docstring of the class has them; [None] is the default of
    [voltage_errors]. *)
Definition __init__ (times voltages : list F) (voltage_errors : option (list F))
  : res VoltageData :=
  let t := np_array times in
  let v := np_array voltages in
  d <~ column_stack t v ;;
  match voltage_errors with
  | Some errs =>
      let v_err := np_array errs in
      d' <~ column_stack (Array2 d) v_err ;;
      Ok (mk_VoltageData d')
  | None => Ok (mk_VoltageData d)
  end.

Definition timestamps : Meth value :=
  self <- get ;;
  lift (ndarray_getitem (_data self) (Index2 all (Int 0))).

Definition voltages : Meth value :=
  self <- get ;;
  lift (ndarray_getitem (_data self) (Index2 all (Int 1))).

Definition voltage_errs : Meth value :=
  try_except
    (self <- get ;;
     lift (ndarray_getitem (_data self) (Index2 all (Int 2))))
    (fun e =>
       match e with
       | IndexError _ =>
           let err_msg := "The optional column 'voltage_errs' is not present." in
           lift (Raise (AttributeError err_msg))
       | _ => lift (Raise e)
       end).

Definition num_rows : Meth nat :=
  self <- get ;; ret (fst (shape (_data self))).

Definition num_columns : Meth nat :=
  self <- get ;; ret (snd (shape (_data self))).

Definition __len__ : Meth nat := num_rows.

Definition __getitem__ (ix : index) : Meth value :=
  self <- get ;; lift (ndarray_getitem (_data self) ix).

(** The generator of [__iter__], driven by its consumer: [body] receives the
    number of rows yielded so far and the row [self._data[i, :]]. *)
Fixpoint for_rows {A : Type} (count : nat) (range : list nat)
  (body : nat -> value -> Meth A) : Meth (list A) :=
  match range with
  | [] => ret []
  | i :: rest =>
      self <- get ;;
      row <- lift (ndarray_getitem (_data self) (Index2 (Int (Z.of_nat i)) all)) ;;
      x <- body count row ;;
      xs <- for_rows (S count) rest body ;;
      ret (x :: xs)
  end.

Definition __iter__ {A : Type} (body : nat -> value -> Meth A) : Meth (list A) :=
  n <- __len__ ;;
  for_rows 0 (seq 0 n) body.

(** One full pass, collecting the rows: [list(self)]. *)
Definition iterate : Meth (list value) :=
  __iter__ (fun _ row => ret row).

Definition spline : Meth (option Spline) :=
  n <- __len__ ;;
  if (3 <? n)%nat then
    x <- timestamps ;;
    y <- voltages ;;
    s <- lift (InterpolatedUnivariateSpline x y 3) ;;
    ret (Some s)
  else
    print "Insufficient number of points (>3)" ;;
    ret None.

(** Calling what [spline()] returned: [None] is not callable. *)
Definition call_spline (f : option Spline) (t : value) : res value :=
  match f with
  | Some s => spline_call s t
  | None => Raise (TypeError "'NoneType' object is not callable")
  end.

Definition __call__ (t : value) : Meth value :=
  spline <- spline ;;
  lift (call_spline spline t).

Definition __repr__ : Meth string :=
  n <- num_columns ;;
  let row_fmt := join_segs " " (repeat (Field "") n) in
  lines <- __iter__ (fun _ row =>
             lift (args <~ iter_value row ;; str_format row_fmt (map AVal args))) ;;
  ret (join newline lines).

Definition __str__ : Meth string :=
  let row_fmt :=
    [Lit "Row "; Field ""; Lit " -> t : "; Field ".1f"; Lit " s   V : ";
     Field ".2f"; Lit " mV"] in
  n <- num_columns ;;
  let row_fmt :=
    if (n =? 3)%nat then (row_fmt ++ [Lit "    dV : "; Field ".2f"; Lit " mV"])%list
    else row_fmt in
  lines <- __iter__ (fun i row =>
             lift (args <~ iter_value row ;;
                   str_format row_fmt (AInt i :: map AVal args))) ;;
  ret (join newline lines).

(** [plot(ax, fmt)]; the extra keyword options go to matplotlib unread. *)
Definition plot (ax : option Axes) (fmt : string) : Meth axes_ref :=
  ax <- match ax with
        | Some a => plt (plt_sca a) ;; ret (GivenAxes a)
        | None => plt (plt_figure "voltage_vs_time") ;; ret (NewFigure "voltage_vs_time")
        end ;;
  x <- timestamps ;;
  y <- voltages ;;
  plt (plt_plot x y (Some fmt) None) ;;
  n <- __len__ ;;
  (if (3 <? n)%nat then
     x <- timestamps ;;
     ts <- timestamps ;;
     y <- __call__ ts ;;
     plt (plt_plot x y None (Some "Cubic spline")) ;;
     plt plt_legend
   else ret tt) ;;
  plt (plt_title "Voltage vs time") ;;
  plt (plt_xlabel "Time [s]") ;;
  plt (plt_ylabel "Voltage [mV]") ;;
  plt (plt_grid true) ;;
  ret ax.

(** *** Reading a file

    [file] is the sequence of lines the opened text file yields, each with
    its line terminator if it has one. *)

(** The three lists [from_file] fills. *)
Record locals : Type := mk_locals { t : list F; v : list F; dv : list F }.

Definition t_append (x : F) : M plt_call locals unit :=
  modify (fun l => mk_locals (t l ++ [x]) (v l) (dv l)).

Definition v_append (x : F) : M plt_call locals unit :=
  modify (fun l => mk_locals (t l) (v l ++ [x]) (dv l)).

Definition dv_append (x : F) : M plt_call locals unit :=
  modify (fun l => mk_locals (t l) (v l) (dv l ++ [x])).

(** The body of the [try]. *)
Definition try_body (values : list string) : M plt_call locals unit :=
  t_value <- lift (s <~ list_getitem values 0 ;; to_float s) ;;
  v_value <- lift (s <~ list_getitem values 1 ;; to_float s) ;;
  t_append t_value ;;
  v_append v_value ;;
  dv_value <- lift (s <~ list_getitem values 2 ;; to_float s) ;;
  dv_append dv_value.

(** The two [except] clauses; both end in [continue]. *)
Definition handler (i : nat) (e : exn) : M plt_call locals unit :=
  match e with
  | IndexError _ => ret tt
  | ValueError _ => print ("Line " ++ str_nat i ++ " error: " ++ exn_str e ++ newline)
  | _ => lift (Raise e)
  end.

Definition fields (line : string) : list string :=
  split tab (strip_chars newline (strip line)).

(** One turn of the loop over [enumerate(file)]. *)
Definition line_step (i : nat) (line : string) : M plt_call locals unit :=
  if startswith "#" line then ret tt
  else
    let values := fields line in
    try_except (try_body values) (handler i).

Fixpoint read_lines (i : nat) (file : list string) : M plt_call locals unit :=
  match file with
  | [] => ret tt
  | line :: rest => line_step i line ;; read_lines (S i) rest
  end.

Definition from_file (file : list string) : M plt_call locals VoltageData :=
  modify (fun _ => mk_locals [] [] []) ;;
  read_lines 0 file ;;
  l <- get ;;
  if negb (length (dv l) =? 0)%nat then lift (__init__ (t l) (v l) (Some (dv l)))
  else lift (__init__ (t l) (v l) None).

(** *** The public operations, as one type *)

Inductive op : Type :=
| Op_timestamps
| Op_voltages
| Op_voltage_errs
| Op_num_rows
| Op_num_columns
| Op_len
| Op_getitem (ix : index)
| Op_iter
| Op_call (t : value)
| Op_repr
| Op_str
| Op_spline
| Op_plot (ax : option Axes) (fmt : string).

(** The state a method leaves, whatever it returned or raised. *)
Definition after {A : Type} (m : Meth A) (self : VoltageData) (p : proc plt_call)
  : VoltageData * proc plt_call :=
  let '(_, self', p') := m self p in (self', p').

Definition run_op (o : op) (self : VoltageData) (p : proc plt_call)
  : VoltageData * proc plt_call :=
  match o with
  | Op_timestamps => after timestamps self p
  | Op_voltages => after voltages self p
  | Op_voltage_errs => after voltage_errs self p
  | Op_num_rows => after num_rows self p
  | Op_num_columns => after num_columns self p
  | Op_len => after __len__ self p
  | Op_getitem ix => after (__getitem__ ix) self p
  | Op_iter => after iterate self p
  | Op_call t => after (__call__ t) self p
  | Op_repr => after __repr__ self p
  | Op_str => after __str__ self p
  | Op_spline => after spline self p
  | Op_plot ax fmt => after (plot ax fmt) self p
  end.

Fixpoint run_ops (os : list op) (self : VoltageData) (p : proc plt_call)
  : VoltageData * proc plt_call :=
  match os with
  | [] => (self, p)
  | o :: rest => let '(self', p') := run_op o self p in run_ops rest self' p'
  end.

(** *** Which lines of a file count

    Field [k] of a line parses when it is present and [float] accepts it; a
    line is retained when it is no comment and its time and value parse. *)
Definition parses (line : string) (k : nat) : bool :=
  match nth_error (fields line) k with
  | Some s => match float s with inl _ => true | inr _ => false end
  | None => false
  end.

Definition retained (line : string) : bool :=
  negb (startswith "#" line) && parses line 0 && parses line 1.

Definition with_error (line : string) : bool :=
  retained line && parses line 2.

Definition without_error (line : string) : bool :=
  retained line && negb (parses line 2).

(** Column [j] of the table, cell by cell. *)
Definition column (j : nat) (a : ndarray) : list F :=
  flat_map (select [j]) (rows a).

(** The time or the value of a line is not a number: [float] rejects field 0,
    or accepts it and rejects field 1, with message [m]. *)
Definition non_numeric (line m : string) : Prop :=
  exists s0, nth_error (fields line) 0 = Some s0 /\
    (float s0 = inr m \/
     exists x0 s1, float s0 = inl x0 /\ nth_error (fields line) 1 = Some s1 /\
                   float s1 = inr m).

(** The time of a line is a number and there is no field 1. *)
Definition value_missing (line : string) : Prop :=
  exists s0 x0, nth_error (fields line) 0 = Some s0 /\ float s0 = inl x0 /\
                nth_error (fields line) 1 = None.

(** A line of a tab separated file, from its cells. *)
Definition tsv (cells : list string) : string :=
  join (String tab "") cells ++ newline.

(** The text [from_file] prints for a [ValueError] of message [m] on line [i]. *)
Definition diagnostic (i : nat) (m : string) : string :=
  "Line " ++ str_nat i ++ " error: " ++ m ++ newline.

(** What [print] leaves on the standard output. *)
Definition printed (p : proc plt_call) (text : string) : proc plt_call :=
  mkProc (stdout p ++ [text ++ newline]) (pyplot p).

(** A method that leaves [self] as it found it. *)
Definition keeps_self {A : Type} (m : Meth A) : Prop :=
  forall self p, snd (fst (m self p)) = self.

(** *** Tables, for stating what the constructor stores *)

(** The rows [[t_i; v_i]] of two sequences. *)
Definition table2 (ts vs : list F) : list (list F) :=
  map (fun tv => [fst tv; snd tv]) (combine ts vs).

(** The rows [[t_i; v_i; e_i]] of three sequences. *)
Definition table3 (ts vs es : list F) : list (list F) :=
  map (fun r => [fst (fst r); snd (fst r); snd r]) (combine (combine ts vs) es).

(** The table a construction from sequences of equal length stores. *)
Definition table_of (times voltages : list F) (errs : option (list F)) : ndarray :=
  match errs with
  | Some e => mk_ndarray 3 (table3 times voltages e)
  | None => mk_ndarray 2 (table2 times voltages)
  end.

(** The lengths the constructor needs to agree. *)
Definition lengths_agree (times voltages : list F) (errs : option (list F)) : Prop :=
  length voltages = length times /\
  match errs with
  | Some e => length e = length times
  | None => True
  end.

(** *** Renderings and drawings, for stating what the methods produce *)

(** [h] on every element with its position, counting from [k]. *)
Fixpoint imap {A B : Type} (h : nat -> A -> B) (k : nat) (l : list A) : list B :=
  match l with
  | [] => []
  | x :: r => h k x :: imap h (S k) r
  end.

(** The line of [__str__] for row [i], when [format] returns what [show] says. *)
Definition str_line (show : string -> pyarg -> string) (i : nat) (r : list F) : string :=
  match r with
  | x :: y :: rest =>
      "Row " ++ show "" (AInt i) ++ " -> t : " ++ show ".1f" (AVal (Scalar x))
      ++ " s   V : " ++ show ".2f" (AVal (Scalar y)) ++ " mV"
      ++ match rest with
         | z :: _ => "    dV : " ++ show ".2f" (AVal (Scalar z)) ++ " mV"
         | [] => EmptyString
         end
  | _ => EmptyString
  end.

(** The first call of [plot], and what [plot] returns. *)
Definition plot_target (ax : option Axes) : plt_call :=
  match ax with
  | Some a => plt_sca a
  | None => plt_figure "voltage_vs_time"
  end.

Definition plot_result (ax : option Axes) : axes_ref :=
  match ax with
  | Some a => GivenAxes a
  | None => NewFigure "voltage_vs_time"
  end.

(** The calls with which [plot] ends. *)
Definition plot_decorations : list plt_call :=
  [plt_title "Voltage vs time"; plt_xlabel "Time [s]"; plt_ylabel "Voltage [mV]";
   plt_grid true].

(** *** Well-formed cells and lines, for stating what [from_file] reads *)

(** Every character of [s] satisfies [p]. *)
Fixpoint all_chars (p : ascii -> bool) (s : string) : bool :=
  match s with
  | EmptyString => true
  | String c r => p c && all_chars p r
  end.

(** A line of white space only. *)
Definition blank (line : string) : bool := all_chars isspace line.

(** A cell that is not empty and holds no white space (so no tab either). *)
Definition clean (s : string) : bool :=
  match s with
  | EmptyString => false
  | _ => all_chars (fun c => negb (isspace c)) s
  end.

(** A row of [w] cells, each a clean text that [float] reads as the value
    beside it, and whose line is no comment. *)
Definition good_row (w : nat) (r : list (string * F)) : Prop :=
  length r = w /\
  Forall (fun sx => clean (fst sx) = true /\ float (fst sx) = inl (snd sx)) r /\
  startswith "#" (tsv (map fst r)) = false.

(** The line of the file for a row of cells. *)
Definition line_of (r : list (string * F)) : string := tsv (map fst r).

(** All retained lines have an error field that parses, or none has. *)
Definition uniform (file : list string) : Prop :=
  (forall line, In line file -> retained line = true -> parses line 2 = true) \/
  (forall line, In line file -> retained line = true -> parses line 2 = false).

(** The bounds of a slice [a:b] with step 1 on an axis of length [len]: an
    omitted start is 0, an omitted stop is [len]. *)
Definition slice_from (a : option nat) : nat :=
  match a with Some k => k | None => 0 end.

Definition slice_upto (len : nat) (b : option nat) : nat :=
  match b with Some k => k | None => len end.

(** ** Properties *)

(** *** The monad *)

Lemma keeps_self_ret {A : Type} (a : A) : keeps_self (ret a).
Proof. intros self p. reflexivity. Qed.

Lemma keeps_self_lift {A : Type} (r : res A) : keeps_self (lift r).
Proof. intros self p. reflexivity. Qed.

Lemma keeps_self_get : keeps_self (@get plt_call VoltageData).
Proof. intros self p. reflexivity. Qed.

Lemma keeps_self_print (text : string) : keeps_self (print text).
Proof. intros self p. reflexivity. Qed.

Lemma keeps_self_plt (call : plt_call) : keeps_self (plt call).
Proof. intros self p. reflexivity. Qed.

Lemma keeps_self_bind {A B : Type} (c : Meth A) (k : A -> Meth B) :
  keeps_self c -> (forall a, keeps_self (k a)) -> keeps_self (bind c k).
Proof.
  intros Hc Hk self p. unfold bind.
  specialize (Hc self p).
  destruct (c self p) as [[[a | e] self'] p']; cbn in Hc; subst self'.
  - apply Hk.
  - reflexivity.
Qed.

Lemma keeps_self_try {A : Type} (c : Meth A) (h : exn -> Meth A) :
  keeps_self c -> (forall e, keeps_self (h e)) -> keeps_self (try_except c h).
Proof.
  intros Hc Hh self p. unfold try_except.
  specialize (Hc self p).
  destruct (c self p) as [[[a | e] self'] p']; cbn in Hc; subst self'.
  - reflexivity.
  - apply Hh.
Qed.

Lemma keeps_self_if {A : Type} (b : bool) (m1 m2 : Meth A) :
  keeps_self m1 -> keeps_self m2 -> keeps_self (if b then m1 else m2).
Proof. destruct b; auto. Qed.

Lemma keeps_self_for_rows {A : Type} (body : nat -> value -> Meth A) :
  (forall k row, keeps_self (body k row)) ->
  forall range count, keeps_self (for_rows count range body).
Proof.
  intros Hbody range.
  induction range as [| i rest IH]; intros count; cbn [for_rows].
  - apply keeps_self_ret.
  - apply keeps_self_bind; [apply keeps_self_get | intros self].
    apply keeps_self_bind; [apply keeps_self_lift | intros row].
    apply keeps_self_bind; [apply Hbody | intros x].
    apply keeps_self_bind; [apply IH | intros xs].
    apply keeps_self_ret.
Qed.

Create HintDb keeps discriminated.

#[local] Hint Resolve keeps_self_ret keeps_self_lift keeps_self_get keeps_self_print
  keeps_self_plt keeps_self_for_rows : keeps.
#[local] Hint Extern 2 (keeps_self (bind _ _)) =>
  apply keeps_self_bind; [ | intro ] : keeps.
#[local] Hint Extern 2 (keeps_self (try_except _ _)) =>
  apply keeps_self_try; [ | intros [ ? | ? | ? | ? | ? ] ] : keeps.
#[local] Hint Extern 2 (keeps_self (if _ then _ else _)) =>
  apply keeps_self_if : keeps.
#[local] Hint Extern 2 (keeps_self (match ?x with Some _ => _ | None => _ end)) =>
  destruct x : keeps.

Lemma keeps_self_timestamps : keeps_self timestamps.
Proof. unfold timestamps. auto with keeps. Qed.

Lemma keeps_self_voltages : keeps_self voltages.
Proof. unfold voltages. auto with keeps. Qed.

Lemma keeps_self_voltage_errs : keeps_self voltage_errs.
Proof. unfold voltage_errs. auto 6 with keeps. Qed.

Lemma keeps_self_num_rows : keeps_self num_rows.
Proof. unfold num_rows. auto with keeps. Qed.

Lemma keeps_self_num_columns : keeps_self num_columns.
Proof. unfold num_columns. auto with keeps. Qed.

Lemma keeps_self_len : keeps_self __len__.
Proof. exact keeps_self_num_rows. Qed.

Lemma keeps_self_getitem (ix : index) : keeps_self (__getitem__ ix).
Proof. unfold __getitem__. auto with keeps. Qed.

#[local] Hint Resolve keeps_self_timestamps keeps_self_voltages keeps_self_num_rows
  keeps_self_num_columns keeps_self_len : keeps.

Lemma keeps_self_iter {A : Type} (body : nat -> value -> Meth A) :
  (forall k row, keeps_self (body k row)) -> keeps_self (__iter__ body).
Proof. intros Hbody. unfold __iter__. auto with keeps. Qed.

Lemma keeps_self_iterate : keeps_self iterate.
Proof. unfold iterate. apply keeps_self_iter. auto with keeps. Qed.

Lemma keeps_self_spline : keeps_self spline.
Proof. unfold spline. auto 8 with keeps. Qed.

#[local] Hint Resolve keeps_self_spline keeps_self_iter : keeps.

Lemma keeps_self_call (q : value) : keeps_self (__call__ q).
Proof. unfold __call__. auto with keeps. Qed.

#[local] Hint Resolve keeps_self_call : keeps.

Lemma keeps_self_repr : keeps_self __repr__.
Proof. unfold __repr__. auto 6 with keeps. Qed.

Lemma keeps_self_str : keeps_self __str__.
Proof. unfold __str__. auto 6 with keeps. Qed.

Lemma keeps_self_plot (ax : option Axes) (fmt : string) : keeps_self (plot ax fmt).
Proof. unfold plot. auto 20 with keeps. Qed.

(** *** Lists, slices and arrays *)

Lemma norm_index_nat (len k : nat) :
  norm_index len (Z.of_nat k) = if (k <? len)%nat then Some k else None.
Proof.
  unfold norm_index.
  destruct (Z.ltb_spec (Z.of_nat k) 0); [lia |].
  destruct (Nat.ltb_spec k len).
  - replace ((0 <=? Z.of_nat k)%Z && (Z.of_nat k <? Z.of_nat len)%Z) with true.
    + now rewrite Nat2Z.id.
    + symmetry. apply andb_true_intro. split; [apply Z.leb_le | apply Z.ltb_lt]; lia.
  - replace (Z.of_nat k <? Z.of_nat len)%Z with false.
    + now rewrite andb_false_r.
    + symmetry. apply Z.ltb_ge. lia.
Qed.

Lemma list_getitem_nat {A : Type} (l : list A) (k : nat) :
  list_getitem l (Z.of_nat k) =
  match nth_error l k with
  | Some x => Ok x
  | None => Raise (list_index_error (Z.of_nat k))
  end.
Proof.
  unfold list_getitem. rewrite norm_index_nat.
  destruct (Nat.ltb_spec k (length l)) as [Hlt | Hge]; [reflexivity |].
  apply nth_error_None in Hge. now rewrite Hge.
Qed.

Lemma slice_indices_all (len : nat) :
  slice_indices len None None None = Ok (seq 0 len).
Proof.
  unfold slice_indices. cbn [Z.eqb Z.ltb Z.compare].
  f_equal.
  assert (Hcount : Z.to_nat (if (0 <? Z.of_nat len)%Z
                             then ((Z.of_nat len - 0 - 1) / 1 + 1)%Z else 0%Z) = len).
  { destruct (Z.ltb_spec 0 (Z.of_nat len)).
    - rewrite Z.div_1_r. lia.
    - lia. }
  rewrite Hcount.
  rewrite <- (map_id (seq 0 len)) at 2.
  apply map_ext. intros k. lia.
Qed.

Lemma select_cons {A : Type} (k : nat) (ks : list nat) (l : list A) :
  select (k :: ks) l =
  (match nth_error l k with Some x => [x] | None => [] end ++ select ks l)%list.
Proof. reflexivity. Qed.

Lemma select_one {A : Type} (k : nat) (l : list A) :
  select [k] l = match nth_error l k with Some x => [x] | None => [] end.
Proof. rewrite select_cons. cbn [select flat_map]. apply app_nil_r. Qed.

Lemma select_seq_app {A : Type} (l pre : list A) :
  select (seq (length pre) (length l)) (pre ++ l)%list = l.
Proof.
  revert pre. induction l as [| x l IH]; intros pre; [reflexivity |].
  cbn [length seq]. rewrite select_cons.
  rewrite nth_error_app2 by lia. rewrite Nat.sub_diag. cbn [nth_error app].
  f_equal.
  specialize (IH (pre ++ [x])%list).
  rewrite <- app_assoc, length_app in IH. cbn [length app] in IH.
  now rewrite Nat.add_1_r in IH.
Qed.

Lemma select_seq {A : Type} (l : list A) : select (seq 0 (length l)) l = l.
Proof. exact (select_seq_app l []). Qed.

Lemma rows_in_all (a : ndarray) : rows_in a None None None = Ok (rows a).
Proof. unfold rows_in. rewrite slice_indices_all. cbn [rbind]. now rewrite select_seq. Qed.

(** An indexing that succeeds on fitting integers is the indexing of numpy. *)
Lemma getitem_ok (a : ndarray) (ix : index) (x : value) :
  basic_getitem a ix = Ok x -> ndarray_getitem a ix = Ok x.
Proof. intros H. unfold ndarray_getitem. now rewrite H. Qed.

(** numpy's order: the conversion of the integers first, on every array whose
    axes are shorter than [2^63]. *)
Lemma getitem_conversion_first (a : ndarray) (ix : index) :
  (Z.of_nat (length (rows a)) < 9223372036854775808)%Z ->
  (Z.of_nat (ncols a) < 9223372036854775808)%Z ->
  ndarray_getitem a ix =
  if index_fits ix then basic_getitem a ix
  else Raise (OverflowError "Python int too large to convert to C long").
Proof.
  intros Hrows Hcols. unfold ndarray_getitem.
  destruct (index_fits ix) eqn:Hfits; [now destruct (basic_getitem a ix) |].
  assert (Haxis : forall axis size i,
             (Z.of_nat size < 9223372036854775808)%Z -> fits_c_long i = false ->
             axis_int axis size i = Raise (axis_error i axis size)).
  { intros axis size i Hsize Hi. unfold axis_int, norm_index.
    unfold fits_c_long in Hi. apply andb_false_iff in Hi.
    destruct (Z.ltb_spec i 0).
    - destruct Hi as [Hi | Hi]; [apply Z.leb_gt in Hi | apply Z.ltb_ge in Hi; lia].
      destruct (Z.leb_spec 0 (i + Z.of_nat size)); [lia | reflexivity].
    - destruct Hi as [Hi | Hi]; [apply Z.leb_gt in Hi; lia | apply Z.ltb_ge in Hi].
      destruct (Z.ltb_spec i (Z.of_nat size)); [lia |].
      now rewrite andb_false_r. }
  destruct ix as [[i | s e st] | [i | s e st] [j | s' e' st']];
    cbn [index_fits idx_fits andb] in Hfits; try discriminate;
    cbn [basic_getitem]; unfold row_at.
  - now rewrite (Haxis 0 _ i Hrows Hfits).
  - apply andb_false_iff in Hfits. destruct Hfits as [Hi | Hj].
    + now rewrite (Haxis 0 _ i Hrows Hi).
    + destruct (axis_int 0 (length (rows a)) i) as [k |]; cbn [rbind]; [| reflexivity].
      destruct (nth_error (rows a) k); [| reflexivity].
      now rewrite (Haxis 1 _ j Hcols Hj).
  - rewrite andb_true_r in Hfits. now rewrite (Haxis 0 _ i Hrows Hfits).
  - destruct (rows_in a s e st); cbn [rbind]; [| reflexivity].
    now rewrite (Haxis 1 _ j Hcols Hfits).
Qed.

(** [a[i, :]] is row [i]. *)
Lemma getitem_row (a : ndarray) (i : nat) (r : list F) :
  rectangular a -> nth_error (rows a) i = Some r ->
  ndarray_getitem a (Index2 (Int (Z.of_nat i)) all) = Ok (Array1 r).
Proof.
  intros Hrect Hr. apply getitem_ok.
  unfold all. cbn [basic_getitem]. unfold row_at, axis_int.
  rewrite norm_index_nat.
  assert (Hlt : (i < length (rows a))%nat) by (apply nth_error_Some; congruence).
  apply Nat.ltb_lt in Hlt. rewrite Hlt. cbn [rbind]. rewrite Hr.
  rewrite slice_indices_all. cbn [rbind].
  assert (Hlen : length r = ncols a).
  { unfold rectangular in Hrect. rewrite Forall_forall in Hrect.
    apply Hrect. eapply nth_error_In; eauto. }
  rewrite <- Hlen. now rewrite select_seq.
Qed.

Lemma column_spec (j : nat) (rs : list (list F)) (n : nat) :
  Forall (fun r => length r = n) rs -> (j < n)%nat ->
  length (flat_map (select [j]) rs) = length rs /\
  forall i r, nth_error rs i = Some r ->
              nth_error (flat_map (select [j]) rs) i = nth_error r j.
Proof.
  intros Hrect Hj. induction Hrect as [| r0 rs Hr0 Hrs IH]; cbn [flat_map].
  - split; [reflexivity |]. intros [| i] r; discriminate.
  - destruct IH as [IHlen IHnth].
    assert (Hsome : exists x, nth_error r0 j = Some x).
    { destruct (nth_error r0 j) eqn:E; [eauto |].
      apply nth_error_None in E. lia. }
    destruct Hsome as [x Hx].
    rewrite select_one, Hx. cbn [app]. split.
    + cbn [length]. now rewrite IHlen.
    + intros [| i] r Hr; cbn [nth_error] in *.
      * injection Hr as <-. now rewrite Hx.
      * now apply IHnth.
Qed.

(** [a[:, j]] is column [j] when the table has one; otherwise an [IndexError]
    or, for an integer that fits no C [long], an [OverflowError]. *)
Lemma getitem_column (a : ndarray) (j : nat) :
  ndarray_getitem a (Index2 all (Int (Z.of_nat j))) =
  if (j <? ncols a)%nat then Ok (Array1 (column j a))
  else Raise (if fits_c_long (Z.of_nat j) then axis_error (Z.of_nat j) 1 (ncols a)
              else OverflowError "Python int too large to convert to C long").
Proof.
  unfold ndarray_getitem, all. cbn [basic_getitem index_fits idx_fits andb].
  rewrite rows_in_all. cbn [rbind].
  unfold axis_int. rewrite norm_index_nat.
  now destruct (j <? ncols a)%nat.
Qed.

(** *** Construction *)

Lemma rectangular_column (l : list F) :
  rectangular (as_columns (Array1 l)) /\
  ncols (as_columns (Array1 l)) = 1 /\
  length (rows (as_columns (Array1 l))) = length l.
Proof.
  cbn [as_columns ncols rows]. unfold rectangular. cbn [ncols rows].
  repeat split.
  - apply Forall_forall. intros r Hr. apply in_map_iff in Hr.
    destruct Hr as [a [<- _]]. reflexivity.
  - apply length_map.
Qed.

Lemma column_stack_ok (x y : value) (d : ndarray) :
  column_stack x y = Ok d ->
  rectangular (as_columns x) -> rectangular (as_columns y) ->
  rectangular d /\
  ncols d = ncols (as_columns x) + ncols (as_columns y) /\
  length (rows d) = length (rows (as_columns x)) /\
  length (rows d) = length (rows (as_columns y)).
Proof.
  unfold column_stack. intros Hd Hx Hy.
  destruct (Nat.eqb_spec (length (rows (as_columns x))) (length (rows (as_columns y))))
    as [Hlen | Hlen]; [| discriminate].
  injection Hd as <-. cbn [ncols rows]. unfold rectangular. cbn [ncols rows].
  rewrite length_map, length_combine, <- Hlen, Nat.min_id.
  repeat split; trivial.
  apply Forall_forall. intros r Hr. apply in_map_iff in Hr.
  destruct Hr as [[r1 r2] [<- Hin]]. cbn [fst snd]. rewrite length_app.
  unfold rectangular in Hx, Hy. rewrite Forall_forall in Hx, Hy.
  f_equal.
  - apply Hx. eapply in_combine_l; eauto.
  - apply Hy. eapply in_combine_r; eauto.
Qed.

Lemma column_stack_raises (x y : value) :
  length (rows (as_columns x)) <> length (rows (as_columns y)) ->
  exists m, column_stack x y = Raise (ValueError m).
Proof.
  intros Hlen. unfold column_stack.
  apply Nat.eqb_neq in Hlen. rewrite Hlen. eauto.
Qed.

Lemma column_stack_returns (x y : value) :
  length (rows (as_columns x)) = length (rows (as_columns y)) ->
  exists d, column_stack x y = Ok d.
Proof.
  intros Hlen. unfold column_stack.
  apply Nat.eqb_eq in Hlen. rewrite Hlen. eauto.
Qed.

(** What a successful construction stores. *)
Lemma init_ok (times voltages : list F) (errs : option (list F)) (c : VoltageData) :
  __init__ times voltages errs = Ok c ->
  rectangular (_data c) /\
  length (rows (_data c)) = length times /\
  length voltages = length times /\
  match errs with
  | Some e => ncols (_data c) = 3 /\ length e = length times
  | None => ncols (_data c) = 2
  end.
Proof.
  unfold __init__, np_array. intros Hc.
  destruct (column_stack (Array1 times) (Array1 voltages)) as [d | e] eqn:Hd;
    cbn [rbind] in Hc; [| discriminate].
  destruct (rectangular_column times) as [Ht [Ht1 Htn]].
  destruct (rectangular_column voltages) as [Hv [Hv1 Hvn]].
  destruct (column_stack_ok _ _ _ Hd Ht Hv) as [Hrect [Hcols [Hrows Hrows']]].
  rewrite Ht1, Hv1 in Hcols. rewrite Htn in Hrows. rewrite Hvn in Hrows'.
  destruct errs as [e |].
  - destruct (column_stack (Array2 d) (Array1 e)) as [d' | e'] eqn:Hd';
      cbn [rbind] in Hc; [| discriminate].
    injection Hc as <-. cbn [_data].
    destruct (rectangular_column e) as [He [He1 Hen]].
    destruct (column_stack_ok _ _ _ Hd' Hrect He) as [Hrect' [Hcols' [Hrows1 Hrows2]]].
    cbn [as_columns ncols rows] in Hcols', Hrows1, Hrows2. rewrite Hcols in Hcols'.
    rewrite length_map in Hrows2.
    repeat split; trivial; congruence.
  - injection Hc as <-. cbn [_data]. repeat split; trivial; congruence.
Qed.

(** The third column must be as long as the first two. *)
Lemma init_short_errors (times voltages errs : list F) :
  length voltages = length times -> length errs <> length times ->
  exists m, __init__ times voltages (Some errs) = Raise (ValueError m).
Proof.
  intros Hv He. unfold __init__, np_array.
  destruct (column_stack_returns (Array1 times) (Array1 voltages)) as [d Hd].
  { destruct (rectangular_column times) as [_ [_ ->]].
    destruct (rectangular_column voltages) as [_ [_ ->]]. congruence. }
  rewrite Hd. cbn [rbind].
  destruct (rectangular_column times) as [Ht [Ht1 Htn]].
  destruct (rectangular_column voltages) as [Hvr [Hv1 Hvn]].
  destruct (column_stack_ok _ _ _ Hd Ht Hvr) as [_ [_ [Hrows _]]].
  destruct (column_stack_raises (Array2 d) (Array1 errs)) as [m Hm].
  { cbn [as_columns]. rewrite Hrows, Htn.
    destruct (rectangular_column errs) as [_ [_ Hen]].
    cbn [as_columns] in Hen. rewrite Hen. congruence. }
  rewrite Hm. cbn [rbind]. eauto.
Qed.

(** *** The loop of [from_file] *)

(** One turn of the loop, case by case. *)
Lemma line_step_eq (i : nat) (line : string) (l : locals) (p : proc plt_call) :
  line_step i line l p =
  if startswith "#" line then (Ok tt, l, p)
  else
    match nth_error (fields line) 0 with
    | None => (Ok tt, l, p)
    | Some s0 =>
        match float s0 with
        | inr m => (Ok tt, l, printed p (diagnostic i m))
        | inl x0 =>
            match nth_error (fields line) 1 with
            | None => (Ok tt, l, p)
            | Some s1 =>
                match float s1 with
                | inr m => (Ok tt, l, printed p (diagnostic i m))
                | inl x1 =>
                    let l1 := mk_locals (t l ++ [x0]) (v l ++ [x1]) (dv l) in
                    match nth_error (fields line) 2 with
                    | None => (Ok tt, l1, p)
                    | Some s2 =>
                        match float s2 with
                        | inr m => (Ok tt, l1, printed p (diagnostic i m))
                        | inl x2 =>
                            (Ok tt, mk_locals (t l ++ [x0]) (v l ++ [x1]) (dv l ++ [x2]), p)
                        end
                    end
                end
            end
        end
    end.
Proof.
  unfold line_step. destruct (startswith "#" line); [reflexivity |].
  unfold try_except, try_body, bind, lift.
  change 0%Z with (Z.of_nat 0). change 1%Z with (Z.of_nat 1).
  change 2%Z with (Z.of_nat 2). rewrite !list_getitem_nat.
  destruct (nth_error (fields line) 0) as [s0 |]; cbn [rbind]; [| reflexivity].
  unfold to_float at 1. destruct (float s0) as [x0 | m]; [| reflexivity].
  destruct (nth_error (fields line) 1) as [s1 |]; cbn [rbind]; [| reflexivity].
  unfold to_float at 1. destruct (float s1) as [x1 | m]; [| reflexivity].
  cbn [t_append v_append modify t v dv].
  destruct (nth_error (fields line) 2) as [s2 |]; cbn [rbind]; [| reflexivity].
  unfold to_float. destruct (float s2) as [x2 | m]; reflexivity.
Qed.

Lemma split_nonempty (sep : ascii) (s : string) : split sep s <> [].
Proof.
  destruct s as [| c r]; cbn [split]; [discriminate |].
  destruct (Ascii.eqb c sep); [discriminate |].
  destruct (split sep r); discriminate.
Qed.

(** Field 0 is always there: only fields 1 and 2 can be missing. *)
Lemma fields_time_present (line : string) :
  exists s0, nth_error (fields line) 0 = Some s0.
Proof.
  unfold fields.
  destruct (split tab (strip_chars newline (strip line))) as [| s0 rest] eqn:E.
  - now apply split_nonempty in E.
  - now exists s0.
Qed.

Lemma filter_length_cons {A : Type} (f : A -> bool) (x : A) (xs : list A) :
  length (filter f (x :: xs)) = (if f x then 1 else 0) + length (filter f xs).
Proof. cbn [filter]. now destruct (f x). Qed.

(** A turn of the loop never raises, and lengthens the lists by what the line
    supplies. *)
Lemma line_step_len (i : nat) (line : string) (l : locals) (p : proc plt_call) :
  exists l1 p1,
    line_step i line l p = (Ok tt, l1, p1) /\
    length (t l1) = length (t l) + (if retained line then 1 else 0) /\
    length (v l1) = length (v l) + (if retained line then 1 else 0) /\
    length (dv l1) = length (dv l) + (if with_error line then 1 else 0).
Proof.
  rewrite line_step_eq. unfold with_error, retained, parses.
  destruct (startswith "#" line); cbn [negb andb].
  { exists l, p. repeat split; lia. }
  destruct (nth_error (fields line) 0) as [s0 |]; cbn [andb].
  2: { exists l, p. repeat split; lia. }
  destruct (float s0) as [x0 | m0]; cbn [andb].
  2: { eexists _, _. split; [reflexivity |]. repeat split; lia. }
  destruct (nth_error (fields line) 1) as [s1 |]; cbn [andb].
  2: { exists l, p. repeat split; lia. }
  destruct (float s1) as [x1 | m1]; cbn [andb].
  2: { eexists _, _. split; [reflexivity |]. repeat split; lia. }
  destruct (nth_error (fields line) 2) as [s2 |];
    [destruct (float s2) as [x2 | m2] |];
    (eexists _, _; split; [reflexivity |]);
    cbn [t v dv]; rewrite ?length_app; cbn [length]; repeat split; lia.
Qed.

Lemma read_lines_len (file : list string) (i : nat) (l : locals) (p : proc plt_call) :
  exists l' p',
    read_lines i file l p = (Ok tt, l', p') /\
    length (t l') = length (t l) + length (filter retained file) /\
    length (v l') = length (v l) + length (filter retained file) /\
    length (dv l') = length (dv l) + length (filter with_error file).
Proof.
  revert i l p. induction file as [| line rest IH]; intros i l p.
  - exists l, p. cbn [read_lines filter length]. repeat split; lia.
  - destruct (line_step_len i line l p) as [l1 [p1 [Hstep [Ht [Hv Hdv]]]]].
    destruct (IH (S i) l1 p1) as [l' [p' [Hrest [Ht' [Hv' Hdv']]]]].
    exists l', p'. cbn [read_lines]. unfold bind at 1. rewrite Hstep.
    rewrite !filter_length_cons. repeat split; trivial; lia.
Qed.

Lemma retained_split (file : list string) :
  length (filter retained file) =
  length (filter with_error file) + length (filter without_error file).
Proof.
  induction file as [| line rest IH]; [reflexivity |].
  rewrite !filter_length_cons, IH. unfold with_error, without_error.
  destruct (retained line), (parses line 2); cbn [andb negb]; lia.
Qed.

Lemma filter_length_pos {A : Type} (f : A -> bool) (xs : list A) :
  (exists x, In x xs /\ f x = true) <-> 0 < length (filter f xs).
Proof.
  split.
  - intros [x [Hin Hf]].
    assert (Hx : In x (filter f xs)) by (apply filter_In; auto).
    destruct (filter f xs); [contradiction | cbn [length]; lia].
  - intros Hpos. destruct (filter f xs) as [| x rest] eqn:E; [cbn in Hpos; lia |].
    assert (Hx : In x (filter f xs)) by (rewrite E; now left).
    apply filter_In in Hx. now exists x.
Qed.

(** [from_file] is the loop from three empty lists, then the constructor. *)
Lemma from_file_eq (file : list string) (l : locals) (p : proc plt_call) :
  exists l' p',
    read_lines 0 file (mk_locals [] [] []) p = (Ok tt, l', p') /\
    length (t l') = length (filter retained file) /\
    length (v l') = length (filter retained file) /\
    length (dv l') = length (filter with_error file) /\
    from_file file l p =
    (__init__ (t l') (v l')
       (if negb (length (dv l') =? 0)%nat then Some (dv l') else None), l', p').
Proof.
  destruct (read_lines_len file 0 (mk_locals [] [] []) p)
    as [l' [p' [Hread [Ht [Hv Hdv]]]]].
  cbn [t v dv length Nat.add] in Ht, Hv, Hdv.
  exists l', p'. repeat split; trivial.
  unfold from_file, bind, modify, get, lift. rewrite Hread.
  now destruct (negb (length (dv l') =? 0)%nat).
Qed.

(** A line that is no comment is dropped for one of two reasons only. *)
Lemma not_retained_cases (line : string) :
  startswith "#" line = false -> retained line = false ->
  (exists m, non_numeric line m) \/ value_missing line.
Proof.
  intros Hc Hr. unfold retained, parses in Hr. rewrite Hc in Hr.
  cbn [negb andb] in Hr.
  destruct (fields_time_present line) as [s0 Hs0]. rewrite Hs0 in Hr.
  destruct (float s0) as [x0 | m0] eqn:E0.
  - cbn [andb] in Hr.
    destruct (nth_error (fields line) 1) as [s1 |] eqn:E1.
    + destruct (float s1) as [x1 | m1] eqn:Ef1; [discriminate |].
      left. exists m1, s0. split; [exact Hs0 |]. right. now exists x0, s1.
    + right. now exists s0, x0.
  - left. exists m0, s0. split; [exact Hs0 |]. now left.
Qed.

(** What [from_file] returns is a rectangular table. *)
Lemma from_file_rectangular
  (file : list string) (l l' : locals) (p p' : proc plt_call) (c : VoltageData) :
  from_file file l p = (Ok c, l', p') -> rectangular (_data c).
Proof.
  intros Hc.
  destruct (from_file_eq file l p) as [l1 [p1 [_ [_ [_ [_ Hfrom]]]]]].
  rewrite Hfrom in Hc. injection Hc as Hc _ _.
  now destruct (init_ok _ _ _ _ Hc) as [Hrect _].
Qed.

(** *** Iteration *)

Lemma for_rows_collect (c : VoltageData) (p : proc plt_call) :
  rectangular (_data c) ->
  forall (suf pre : list (list F)) (count : nat),
    rows (_data c) = (pre ++ suf)%list ->
    for_rows count (seq (length pre) (length suf)) (fun _ row => ret row) c p =
    (Ok (map Array1 suf), c, p).
Proof.
  intros Hrect suf. induction suf as [| r suf IH]; intros pre count Hrows.
  - reflexivity.
  - cbn [length seq for_rows]. unfold bind, get, lift. unfold ret in IH |- *.
    rewrite (getitem_row (_data c) (length pre) r Hrect).
    + specialize (IH (pre ++ [r])%list (S count)).
      rewrite length_app in IH. cbn [length] in IH. rewrite Nat.add_1_r in IH.
      rewrite IH; [reflexivity |].
      now rewrite <- app_assoc.
    + rewrite Hrows, nth_error_app2 by lia. now rewrite Nat.sub_diag.
Qed.

Lemma iterate_rows (c : VoltageData) (p : proc plt_call) :
  rectangular (_data c) ->
  iterate c p = (Ok (map Array1 (rows (_data c))), c, p).
Proof.
  intros Hrect. unfold iterate, __iter__, __len__, num_rows.
  unfold bind at 1. unfold bind at 1. unfold get, ret. cbn [shape fst].
  exact (for_rows_collect c p Hrect (rows (_data c)) [] 0 eq_refl).
Qed.

(** *** The claims *)

(** On a container with fewer than 4 rows, the interpolated evaluation
    [__call__] prints the diagnostic of [spline] and then raises a
    [TypeError], because it calls the [None] that [spline] returned; it
    returns no value, and the container is left as it was. *)
Lemma call_raises_with_few_rows
  (c : VoltageData) (p : proc plt_call) (q : value) (n : nat) :
  num_rows c p = (Ok n, c, p) -> n < 4 ->
  __call__ q c p =
  (Raise (TypeError "'NoneType' object is not callable"), c,
   printed p "Insufficient number of points (>3)").
Proof.
  intros Hn Hlt. unfold __call__, spline, __len__.
  unfold bind at 1. unfold bind at 1. rewrite Hn.
  assert (H3 : (3 <? n)%nat = false) by (apply Nat.ltb_ge; lia).
  rewrite H3. reflexivity.
Qed.

(** C3, as the code has it: in [from_file], the fields of a line being those
    of the line stripped of its surrounding white space and split on tabs, a
    line that is no comment and whose time field is not a number, or whose
    time is a number and whose value field is there and is not a number,
    makes the loop print [Line i error: ...], keep none of its fields and go
    on with the next line; a line whose time is a number and whose value
    field is missing is dropped in the same way but without any diagnostic;
    every dropped line that is no comment is of one of these two kinds; and
    in no case does the loop raise. *)
Theorem C3_bad_time_or_value_is_skipped
  (i : nat) (line : string) (rest : list string) (l : locals) (p : proc plt_call) :
  startswith "#" line = false ->
  (forall m, non_numeric line m ->
     read_lines i (line :: rest) l p =
     read_lines (S i) rest l (printed p (diagnostic i m))) /\
  (value_missing line ->
     read_lines i (line :: rest) l p = read_lines (S i) rest l p) /\
  (exists l' p', read_lines i (line :: rest) l p = (Ok tt, l', p')) /\
  (retained line = false -> (exists m, non_numeric line m) \/ value_missing line).
Proof.
  intros Hcomment. split; [| split; [| split]].
  - intros m [s0 [Hs0 Hbad]]. cbn [read_lines]. unfold bind at 1.
    rewrite line_step_eq, Hcomment, Hs0.
    destruct Hbad as [Hm | [x0 [s1 [Hx0 [Hs1 Hm]]]]].
    + now rewrite Hm.
    + now rewrite Hx0, Hs1, Hm.
  - intros [s0 [x0 [Hs0 [Hx0 Hnone]]]]. cbn [read_lines]. unfold bind at 1.
    now rewrite line_step_eq, Hcomment, Hs0, Hx0, Hnone.
  - destruct (read_lines_len (line :: rest) i l p) as [l' [p' [Hread _]]].
    now exists l', p'.
  - now apply not_retained_cases.
Qed.

(** C4: on a container with exactly 2 columns the accessor [voltage_errs]
    raises an [AttributeError], and no [IndexError]; on a container with 3
    columns it returns column 2, which has as many cells as the table has rows. *)
Theorem C4_voltage_errs_attribute_error
  (c : VoltageData) (p : proc plt_call) (n : nat) :
  rectangular (_data c) ->
  num_columns c p = (Ok n, c, p) ->
  (n = 2 ->
     voltage_errs c p =
     (Raise (AttributeError "The optional column 'voltage_errs' is not present."), c, p) /\
     forall m, fst (fst (voltage_errs c p)) <> Raise (IndexError m)) /\
  (n = 3 ->
     exists col rows_n,
       voltage_errs c p = (Ok (Array1 col), c, p) /\
       num_rows c p = (Ok rows_n, c, p) /\
       length col = rows_n /\
       forall k r, nth_error (rows (_data c)) k = Some r ->
                   nth_error col k = nth_error r 2).
Proof.
  intros Hrect Hn. unfold num_columns, bind, get, ret in Hn. cbn [shape snd] in Hn.
  injection Hn as Hn.
  assert (Herrs : voltage_errs c p =
                  if (2 <? ncols (_data c))%nat
                  then (Ok (Array1 (column 2 (_data c))), c, p)
                  else (Raise (AttributeError
                          "The optional column 'voltage_errs' is not present."), c, p)).
  { unfold voltage_errs, try_except, bind, get, lift.
    change 2%Z with (Z.of_nat 2). rewrite getitem_column.
    now destruct (2 <? ncols (_data c))%nat. }
  split; intros ->.
  - rewrite Herrs, Hn. cbn [Nat.ltb Nat.leb]. split; [reflexivity |].
    intros m. cbn [fst]. discriminate.
  - rewrite Herrs, Hn. cbn [Nat.ltb Nat.leb].
    destruct (column_spec 2 (rows (_data c)) (ncols (_data c)) Hrect) as [Hlen Hnth];
      [lia |].
    exists (column 2 (_data c)), (length (rows (_data c))).
    repeat split; trivial.
Qed.

(** C5: a construction that succeeds gives 2 or 3 columns; from sequences it
    gives 3 exactly when an error sequence was passed, and from a file exactly
    when some retained line has a third field that parses. *)
Theorem C5_column_count_two_or_three :
  (forall (times voltages : list F) (errs : option (list F)) (c : VoltageData)
          (q : proc plt_call),
     __init__ times voltages errs = Ok c ->
     exists n, num_columns c q = (Ok n, c, q) /\ (n = 2 \/ n = 3) /\
               (n = 3 <-> errs <> None)) /\
  (forall (file : list string) (l l' : locals) (p p' q : proc plt_call)
          (c : VoltageData),
     from_file file l p = (Ok c, l', p') ->
     exists n, num_columns c q = (Ok n, c, q) /\ (n = 2 \/ n = 3) /\
               (n = 3 <-> exists line, In line file /\ with_error line = true)).
Proof.
  split.
  - intros times voltages errs c q Hc.
    exists (ncols (_data c)). split; [reflexivity |].
    destruct (init_ok _ _ _ _ Hc) as [_ [_ [_ Hcols]]].
    destruct errs as [e |].
    + destruct Hcols as [-> _]. split; [now right |]. split; congruence.
    + rewrite Hcols. split; [now left |]. split; [discriminate | congruence].
  - intros file l l' p p' q c Hc.
    exists (ncols (_data c)). split; [reflexivity |].
    destruct (from_file_eq file l p) as [l1 [p1 [_ [_ [_ [Hdv Hfrom]]]]]].
    rewrite Hfrom in Hc. injection Hc as Hc _ _.
    destruct (init_ok _ _ _ _ Hc) as [_ [_ [_ Hcols]]].
    rewrite filter_length_pos, <- Hdv.
    destruct (Nat.eqb_spec (length (dv l1)) 0) as [Hz | Hnz]; cbn [negb] in Hcols.
    + rewrite Hcols, Hz. split; [now left |]. split; [discriminate | lia].
    + destruct Hcols as [-> _]. split; [now right |]. split; [lia | reflexivity].
Qed.

(** C6: on a container with fewer than 4 rows, [spline] builds no spline: it
    prints a diagnostic and returns [None], and raises nothing. *)
Theorem C6_spline_none_with_few_rows
  (c : VoltageData) (p : proc plt_call) (n : nat) :
  num_rows c p = (Ok n, c, p) -> n < 4 ->
  spline c p = (Ok None, c, printed p "Insufficient number of points (>3)").
Proof.
  intros Hn Hlt. unfold spline, __len__. unfold bind at 1. rewrite Hn.
  assert (H3 : (3 <? n)%nat = false) by (apply Nat.ltb_ge; lia).
  rewrite H3. reflexivity.
Qed.

(** C7: whatever public operations run on a container, in whatever order and
    whether they return or raise, the stored table is the one it was built
    with, and so is its column count. *)
Theorem C7_operations_keep_the_table
  (os : list op) (c : VoltageData) (p : proc plt_call) :
  fst (run_ops os c p) = c /\
  forall q, num_columns (fst (run_ops os c p)) q = num_columns c q.
Proof.
  assert (Hkeep : forall o self q, fst (run_op o self q) = self).
  { intros o self q.
    assert (Hafter : forall (A : Type) (m : Meth A),
               keeps_self m -> fst (after m self q) = self).
    { intros A m Hm. unfold after. specialize (Hm self q).
      now destruct (m self q) as [[r self'] q']. }
    destruct o; cbn [run_op]; apply Hafter;
      auto using keeps_self_timestamps, keeps_self_voltages, keeps_self_voltage_errs,
        keeps_self_num_rows, keeps_self_num_columns, keeps_self_len,
        keeps_self_getitem, keeps_self_iterate, keeps_self_call, keeps_self_repr,
        keeps_self_str, keeps_self_spline, keeps_self_plot. }
  assert (Hall : fst (run_ops os c p) = c).
  { revert c p. induction os as [| o rest IH]; intros c p; [reflexivity |].
    cbn [run_ops]. specialize (Hkeep o c p).
    destruct (run_op o c p) as [self' p']. cbn [fst] in Hkeep. subst self'.
    apply IH. }
  split; [exact Hall |]. intros q. now rewrite Hall.
Qed.

(** C8: one pass over a container yields its rows in table order, as many as
    the row count, each with as many cells as the column count; a second pass
    right after the first yields the same rows again. *)
Theorem C8_iteration_yields_the_rows
  (c : VoltageData) (p : proc plt_call) :
  rectangular (_data c) ->
  exists yielded,
    iterate c p = (Ok yielded, c, p) /\
    yielded = map Array1 (rows (_data c)) /\
    num_rows c p = (Ok (length yielded), c, p) /\
    (forall row, In row yielded ->
       exists cells, row = Array1 cells /\
                     num_columns c p = (Ok (length cells), c, p)) /\
    (a <- iterate ;; b <- iterate ;; ret (a, b)) c p = (Ok (yielded, yielded), c, p).
Proof.
  intros Hrect. exists (map Array1 (rows (_data c))).
  pose proof (iterate_rows c p Hrect) as Hiter.
  split; [exact Hiter |]. split; [reflexivity |]. split.
  { unfold num_rows, bind, get, ret. cbn [shape fst]. now rewrite length_map. }
  split.
  - intros row Hrow. apply in_map_iff in Hrow. destruct Hrow as [cells [<- Hin]].
    exists cells. split; [reflexivity |].
    unfold num_columns, bind, get, ret. cbn [shape snd].
    unfold rectangular in Hrect. rewrite Forall_forall in Hrect.
    now rewrite (Hrect cells Hin).
  - unfold bind. rewrite Hiter, Hiter. reflexivity.
Qed.

(** C9: the container [from_file] builds has as many rows as the file has
    lines that are no comment and whose time and value fields both parse. *)
Theorem C9_from_file_row_count
  (file : list string) (l l' : locals) (p p' q : proc plt_call) (c : VoltageData) :
  from_file file l p = (Ok c, l', p') ->
  num_rows c q = (Ok (length (filter retained file)), c, q).
Proof.
  intros Hc.
  destruct (from_file_eq file l p) as [l1 [p1 [_ [Ht [_ [_ Hfrom]]]]]].
  rewrite Hfrom in Hc. injection Hc as Hc _ _.
  destruct (init_ok _ _ _ _ Hc) as [_ [Hrows _]].
  unfold num_rows, bind, get, ret. cbn [shape fst]. now rewrite Hrows, Ht.
Qed.

(** C10: when some retained line of the file has a third field that parses
    and some retained line has none that parses, the loop of [from_file] ends
    normally with a non-empty error list shorter than the time list, the
    constructor then raises a [ValueError], and [from_file] returns no
    container. *)
Theorem C10_partial_errors_raise
  (file : list string) (l : locals) (p : proc plt_call) :
  (exists line, In line file /\ with_error line = true) ->
  (exists line, In line file /\ without_error line = true) ->
  exists l' p' m,
    read_lines 0 file (mk_locals [] [] []) p = (Ok tt, l', p') /\
    0 < length (dv l') < length (t l') /\
    __init__ (t l') (v l') (Some (dv l')) = Raise (ValueError m) /\
    from_file file l p = (Raise (ValueError m), l', p').
Proof.
  intros Hwith Hwithout.
  apply filter_length_pos in Hwith. apply filter_length_pos in Hwithout.
  destruct (from_file_eq file l p) as [l' [p' [Hread [Ht [Hv [Hdv Hfrom]]]]]].
  pose proof (retained_split file) as Hsplit.
  assert (Hlen : 0 < length (dv l') < length (t l')) by lia.
  destruct (init_short_errors (t l') (v l') (dv l')) as [m Hm]; [lia | lia |].
  exists l', p', m. repeat split; trivial; try lia.
  rewrite Hfrom.
  destruct (Nat.eqb_spec (length (dv l')) 0) as [Hz | _]; [lia |].
  cbn [negb]. now rewrite Hm.
Qed.

(** The loop step behind C1: when time and value parse and the third field is
    there but is not a number, the time and the value stay in [t] and [v]. *)
Lemma bad_third_field_keeps_time_and_value
  (i : nat) (line s0 s1 s2 m : string) (x0 x1 : F) (l : locals) (p : proc plt_call) :
  startswith "#" line = false ->
  nth_error (fields line) 0 = Some s0 -> float s0 = inl x0 ->
  nth_error (fields line) 1 = Some s1 -> float s1 = inl x1 ->
  nth_error (fields line) 2 = Some s2 -> float s2 = inr m ->
  line_step i line l p =
  (Ok tt, mk_locals (t l ++ [x0]) (v l ++ [x1]) (dv l), printed p (diagnostic i m)).
Proof.
  intros Hc H0 Hx0 H1 Hx1 H2 Hm.
  now rewrite line_step_eq, Hc, H0, Hx0, H1, Hx1, H2, Hm.
Qed.

(** *** More on the constructor and the accessors *)

Lemma column_stack_two (ts vs : list F) :
  length vs = length ts ->
  column_stack (Array1 ts) (Array1 vs) = Ok (mk_ndarray 2 (table2 ts vs)).
Proof.
  intros Hlen. unfold column_stack. cbn [as_columns rows ncols].
  rewrite !length_map, <- Hlen, Nat.eqb_refl. do 2 f_equal.
  unfold table2. clear Hlen. revert vs.
  induction ts as [| a ts IH]; intros [| b vs]; cbn [map combine fst snd app];
    try reflexivity.
  now rewrite IH.
Qed.

Lemma table2_length (ts vs : list F) :
  length vs = length ts -> length (table2 ts vs) = length ts.
Proof.
  intros Hlen. unfold table2. rewrite length_map, length_combine. lia.
Qed.

Lemma column_stack_three (ts vs es : list F) :
  length vs = length ts -> length es = length ts ->
  column_stack (Array2 (mk_ndarray 2 (table2 ts vs))) (Array1 es) =
  Ok (mk_ndarray 3 (table3 ts vs es)).
Proof.
  intros Hv He. unfold column_stack. cbn [as_columns rows ncols].
  rewrite length_map, table2_length, He, Nat.eqb_refl by exact Hv.
  do 2 f_equal. unfold table2, table3. clear Hv He. revert vs es.
  induction ts as [| a ts IH]; intros [| b vs] [| e es];
    cbn [map combine fst snd app]; try reflexivity.
  now rewrite IH.
Qed.

Lemma init_table (times voltages : list F) (errs : option (list F)) :
  lengths_agree times voltages errs ->
  __init__ times voltages errs = Ok (mk_VoltageData (table_of times voltages errs)).
Proof.
  intros [Hv He]. unfold __init__, np_array, table_of.
  rewrite column_stack_two by exact Hv. cbn [rbind].
  destruct errs as [e |]; [| reflexivity].
  now rewrite column_stack_three.
Qed.

Lemma init_ok_table (times voltages : list F) (errs : option (list F)) (c : VoltageData) :
  __init__ times voltages errs = Ok c ->
  lengths_agree times voltages errs /\ c = mk_VoltageData (table_of times voltages errs).
Proof.
  intros Hc.
  assert (Hagree : lengths_agree times voltages errs).
  { destruct (init_ok _ _ _ _ Hc) as [_ [_ [Hv He]]]. split; [exact Hv |].
    destruct errs as [e |]; [now destruct He | exact I]. }
  split; [exact Hagree |].
  rewrite (init_table _ _ _ Hagree) in Hc. now injection Hc as <-.
Qed.

Lemma nth_error_table2 (ts vs : list F) (i : nat) (x y : F) :
  nth_error ts i = Some x -> nth_error vs i = Some y ->
  nth_error (table2 ts vs) i = Some [x; y].
Proof.
  unfold table2. revert vs i.
  induction ts as [| a ts IH]; intros [| b vs] [| i]; cbn [nth_error combine map];
    try discriminate.
  - now intros [= ->] [= ->].
  - apply IH.
Qed.

Lemma nth_error_table3 (ts vs es : list F) (i : nat) (x y z : F) :
  nth_error ts i = Some x -> nth_error vs i = Some y -> nth_error es i = Some z ->
  nth_error (table3 ts vs es) i = Some [x; y; z].
Proof.
  unfold table3. revert vs es i.
  induction ts as [| a ts IH]; intros [| b vs] [| e es] [| i];
    cbn [nth_error combine map]; try discriminate.
  - now intros [= ->] [= ->] [= ->].
  - apply IH.
Qed.

Lemma column_table2 (ts vs : list F) :
  length vs = length ts ->
  flat_map (select [0]) (table2 ts vs) = ts /\
  flat_map (select [1]) (table2 ts vs) = vs.
Proof.
  unfold table2. revert vs.
  induction ts as [| a ts IH]; intros [| b vs] Hlen; cbn [length] in Hlen;
    try discriminate; [now split |].
  destruct (IH vs) as [H0 H1]; [lia |].
  cbn [combine map flat_map fst snd]. rewrite !select_one. cbn [nth_error app].
  now rewrite H0, H1.
Qed.

Lemma column_table3 (ts vs es : list F) :
  length vs = length ts -> length es = length ts ->
  flat_map (select [0]) (table3 ts vs es) = ts /\
  flat_map (select [1]) (table3 ts vs es) = vs /\
  flat_map (select [2]) (table3 ts vs es) = es.
Proof.
  unfold table3. revert vs es.
  induction ts as [| a ts IH]; intros [| b vs] [| e es] Hv He; cbn [length] in Hv, He;
    try discriminate; [now repeat split |].
  destruct (IH vs es) as [H0 [H1 H2]]; [lia | lia |].
  cbn [combine map flat_map fst snd]. rewrite !select_one. cbn [nth_error app].
  now rewrite H0, H1, H2.
Qed.

(** X1: when the sequences passed to the constructor have the same length, it
    returns a container whose row [i] is [[times[i]; voltages[i]]], followed
    by [errs[i]] when errors were passed; its shape is the common length by 2
    or 3. *)
Theorem X1_init_stores_the_rows
  (times voltages : list F) (errs : option (list F)) (p : proc plt_call) :
  lengths_agree times voltages errs ->
  let c := mk_VoltageData (table_of times voltages errs) in
  __init__ times voltages errs = Ok c /\
  num_rows c p = (Ok (length times), c, p) /\
  num_columns c p = (Ok (match errs with Some _ => 3 | None => 2 end), c, p) /\
  rectangular (_data c).
Proof.
  intros Hagree c. pose proof (init_table _ _ _ Hagree) as Hc. fold c in Hc.
  destruct (init_ok _ _ _ _ Hc) as [Hrect [Hrows [_ Hcols]]].
  split; [exact Hc |]. split; [| split; [| exact Hrect]].
  - unfold num_rows, bind, get, ret. cbn [shape fst]. now rewrite Hrows.
  - unfold num_columns, bind, get, ret. cbn [shape snd].
    destruct errs as [e |]; [now destruct Hcols as [-> _] | now rewrite Hcols].
Qed.

(** X2: the constructor has no length check of its own: it succeeds exactly
    when [voltages], and [errs] if passed, are as long as [times], and in
    every other case [np.column_stack] raises a [ValueError]. *)
Theorem X2_init_raises_iff_lengths_differ
  (times voltages : list F) (errs : option (list F)) :
  ((exists c, __init__ times voltages errs = Ok c) <->
   lengths_agree times voltages errs) /\
  (~ lengths_agree times voltages errs ->
   exists m, __init__ times voltages errs = Raise (ValueError m)).
Proof.
  split; [split |].
  - intros [c Hc]. now destruct (init_ok_table _ _ _ _ Hc).
  - intros Hagree. eexists. now apply init_table.
  - intros Hno. unfold lengths_agree in Hno.
    destruct (Nat.eq_dec (length voltages) (length times)) as [Hv | Hv].
    + destruct errs as [e |]; [| now destruct Hno].
      apply init_short_errors; [exact Hv |]. intros He. now apply Hno.
    + unfold __init__, np_array.
      destruct (column_stack_raises (Array1 times) (Array1 voltages)) as [m Hm].
      { cbn [as_columns rows]. rewrite !length_map. congruence. }
      rewrite Hm. cbn [rbind]. eauto.
Qed.

Lemma accessors_after_init
  (times volts : list F) (errs : option (list F)) (c : VoltageData)
  (p : proc plt_call) :
  __init__ times volts errs = Ok c ->
  timestamps c p = (Ok (Array1 times), c, p) /\
  voltages c p = (Ok (Array1 volts), c, p) /\
  forall e, errs = Some e -> voltage_errs c p = (Ok (Array1 e), c, p).
Proof.
  intros Hc. destruct (init_ok_table _ _ _ _ Hc) as [[Hv He] ->].
  unfold timestamps, voltages, voltage_errs, try_except, bind, get, lift.
  change 0%Z with (Z.of_nat 0). change 1%Z with (Z.of_nat 1).
  change 2%Z with (Z.of_nat 2). rewrite !getitem_column. unfold column.
  destruct errs as [e |]; cbn [table_of _data ncols rows Nat.ltb Nat.leb].
  - destruct (column_table3 times volts e Hv He) as [-> [-> ->]].
    repeat split. now intros e' [= <-].
  - destruct (column_table2 times volts Hv) as [-> ->].
    repeat split. discriminate.
Qed.

(** X3: the accessors give back what the constructor was given:
    [timestamps] is [times], [voltages] is [voltages], and [voltage_errs] is
    the error sequence when one was passed. *)
Theorem X3_accessors_return_the_inputs
  (times volts : list F) (errs : option (list F)) (c : VoltageData)
  (p : proc plt_call) :
  __init__ times volts errs = Ok c ->
  timestamps c p = (Ok (Array1 times), c, p) /\
  voltages c p = (Ok (Array1 volts), c, p) /\
  forall e, errs = Some e -> voltage_errs c p = (Ok (Array1 e), c, p).
Proof. exact (accessors_after_init times volts errs c p). Qed.

(** X4: row [i] of a container holds the [i]-th time, voltage and error that
    were passed: [c[i, 0]], [c[i, 1]] and [c[i, 2]] return them. *)
Theorem X4_cells_are_co_indexed
  (times volts : list F) (errs : option (list F)) (c : VoltageData)
  (p : proc plt_call) (i : nat) (x y : F) :
  __init__ times volts errs = Ok c ->
  nth_error times i = Some x -> nth_error volts i = Some y ->
  __getitem__ (Index2 (Int (Z.of_nat i)) (Int 0)) c p = (Ok (Scalar x), c, p) /\
  __getitem__ (Index2 (Int (Z.of_nat i)) (Int 1)) c p = (Ok (Scalar y), c, p) /\
  forall e z, errs = Some e -> nth_error e i = Some z ->
    __getitem__ (Index2 (Int (Z.of_nat i)) (Int 2)) c p = (Ok (Scalar z), c, p).
Proof.
  intros Hc Hx Hy. destruct (init_ok_table _ _ _ _ Hc) as [[Hv He] ->].
  assert (Hcell : forall d r j w,
             nth_error (rows d) i = Some r -> (j <? ncols d)%nat = true ->
             nth_error r j = Some w ->
             ndarray_getitem d (Index2 (Int (Z.of_nat i)) (Int (Z.of_nat j))) =
             Ok (Scalar w)).
  { intros d r j w Hr Hj Hw. apply getitem_ok. cbn [basic_getitem].
    unfold row_at, axis_int. rewrite !norm_index_nat.
    assert (Hlt : (i < length (rows d))%nat) by (apply nth_error_Some; congruence).
    apply Nat.ltb_lt in Hlt. rewrite Hlt. cbn [rbind]. rewrite Hr, Hj. cbn [rbind].
    now rewrite Hw. }
  unfold __getitem__, bind, get, lift. cbn [_data].
  change 0%Z with (Z.of_nat 0). change 1%Z with (Z.of_nat 1).
  change 2%Z with (Z.of_nat 2).
  destruct errs as [e |]; cbn [table_of].
  - destruct (nth_error e i) as [z |] eqn:Hz.
    + assert (Hrow : nth_error (rows (mk_ndarray 3 (table3 times volts e))) i =
                     Some [x; y; z]) by (cbn [rows]; now apply nth_error_table3).
      rewrite (Hcell _ _ 0 x Hrow eq_refl eq_refl).
      rewrite (Hcell _ _ 1 y Hrow eq_refl eq_refl).
      rewrite (Hcell _ _ 2 z Hrow eq_refl eq_refl).
      repeat split. intros e' z' [= <-]. rewrite Hz. now intros [= <-].
    + exfalso. apply nth_error_None in Hz.
      assert (i < length times)%nat by (apply nth_error_Some; congruence). lia.
  - assert (Hrow : nth_error (rows (mk_ndarray 2 (table2 times volts))) i =
                   Some [x; y]) by (cbn [rows]; now apply nth_error_table2).
    rewrite (Hcell _ _ 0 x Hrow eq_refl eq_refl).
    rewrite (Hcell _ _ 1 y Hrow eq_refl eq_refl).
    repeat split. discriminate.
Qed.

(** *** Indexing *)

Lemma seq_as_map (a n s : nat) :
  map (fun k => Z.to_nat (Z.of_nat a + Z.of_nat k * 1)) (seq s n) = seq (a + s) n.
Proof.
  revert s. induction n as [| n IH]; intros s; cbn [seq map]; [reflexivity |].
  rewrite IH. f_equal; [lia |]. now rewrite Nat.add_succ_r.
Qed.

Lemma slice_bound_in_range (len b : nat) :
  (b <= len)%nat -> slice_bound len false (Z.of_nat b) = Z.of_nat b.
Proof.
  intros Hb. unfold slice_bound.
  destruct (Z.ltb_spec (Z.of_nat b) 0); [lia |].
  destruct (Z.leb_spec (Z.of_nat len) (Z.of_nat b)); lia.
Qed.

(** [a:b] within the axis selects the positions [a], ..., [b - 1]. *)
Lemma slice_indices_range (len a b : nat) :
  (a <= b)%nat -> (b <= len)%nat ->
  slice_indices len (Some (Z.of_nat a)) (Some (Z.of_nat b)) None = Ok (seq a (b - a)).
Proof.
  intros Hab Hb. unfold slice_indices. cbn [Z.eqb Z.ltb Z.compare].
  rewrite !slice_bound_in_range by lia. f_equal.
  assert (Hcount : Z.to_nat (if (Z.of_nat a <? Z.of_nat b)%Z
                             then ((Z.of_nat b - Z.of_nat a - 1) / 1 + 1)%Z
                             else 0%Z) = (b - a)%nat).
  { destruct (Z.ltb_spec (Z.of_nat a) (Z.of_nat b)).
    - rewrite Z.div_1_r. lia.
    - lia. }
  rewrite Hcount, seq_as_map. now rewrite Nat.add_0_r.
Qed.

Lemma select_middle {A : Type} (mid pre post : list A) :
  select (seq (length pre) (length mid)) (pre ++ mid ++ post)%list = mid.
Proof.
  revert pre. induction mid as [| x mid IH]; intros pre; [reflexivity |].
  cbn [length seq]. rewrite select_cons.
  rewrite nth_error_app2 by lia. rewrite Nat.sub_diag. cbn [nth_error app].
  f_equal.
  specialize (IH (pre ++ [x])%list).
  rewrite <- app_assoc, length_app in IH. cbn [length app] in IH.
  now rewrite Nat.add_1_r in IH.
Qed.

Lemma select_range {A : Type} (l : list A) (a k : nat) :
  (a + k <= length l)%nat -> select (seq a k) l = firstn k (skipn a l).
Proof.
  intros Hlen.
  pose proof (select_middle (firstn k (skipn a l)) (firstn a l)
                (skipn k (skipn a l))) as H.
  rewrite !firstn_skipn in H.
  rewrite !length_firstn, length_skipn in H.
  now replace (Nat.min a (length l)) with a in H by lia;
    replace (Nat.min k (length l - a)) with k in H by lia.
Qed.

Lemma in_firstn {A : Type} (k : nat) (l : list A) (x : A) :
  In x (firstn k l) -> In x l.
Proof.
  intros Hx. rewrite <- (firstn_skipn k l). apply in_or_app. now left.
Qed.

Lemma in_skipn {A : Type} (k : nat) (l : list A) (x : A) :
  In x (skipn k l) -> In x l.
Proof.
  intros Hx. rewrite <- (firstn_skipn k l). apply in_or_app. now right.
Qed.


Lemma slice_indices_open (len : nat) (a b : option nat) :
  (slice_from a <= slice_upto len b)%nat -> (slice_upto len b <= len)%nat ->
  slice_indices len (option_map Z.of_nat a) (option_map Z.of_nat b) None =
  Ok (seq (slice_from a) (slice_upto len b - slice_from a)).
Proof.
  intros Hab Hb.
  rewrite <- (slice_indices_range len (slice_from a) (slice_upto len b) Hab Hb).
  unfold slice_indices. cbn [Z.eqb Z.ltb Z.compare].
  destruct a as [a |], b as [b |]; cbn [option_map slice_from slice_upto] in *;
    rewrite ?slice_bound_in_range by lia; reflexivity.
Qed.

(** X6: a slice [c[a:b, lo:hi]] of step 1 that lies within the table, with
    any of its bounds omitted, returns the sub-table of the rows [a..b-1] and
    the columns [lo..hi-1], of shape [(b - a, hi - lo)]; an omitted start is
    0 and an omitted stop is the length of the axis. *)
Theorem X6_slice_is_the_sub_table
  (c : VoltageData) (p : proc plt_call) (a b lo hi : option nat) :
  let n := length (rows (_data c)) in
  let w := ncols (_data c) in
  let a' := slice_from a in
  let b' := slice_upto n b in
  let lo' := slice_from lo in
  let hi' := slice_upto w hi in
  rectangular (_data c) ->
  (a' <= b')%nat -> (b' <= n)%nat -> (lo' <= hi')%nat -> (hi' <= w)%nat ->
  let sub := mk_ndarray (hi' - lo')
               (map (fun r => firstn (hi' - lo') (skipn lo' r))
                    (firstn (b' - a') (skipn a' (rows (_data c))))) in
  __getitem__ (Index2 (Slice (option_map Z.of_nat a) (option_map Z.of_nat b) None)
                      (Slice (option_map Z.of_nat lo) (option_map Z.of_nat hi) None))
    c p =
  (Ok (Array2 sub), c, p) /\
  shape sub = ((b' - a')%nat, (hi' - lo')%nat) /\
  rectangular sub.
Proof.
  intros n w a' b' lo' hi' Hrect Hab Hb Hlh Hhi sub.
  unfold rectangular in Hrect. rewrite Forall_forall in Hrect.
  assert (Hin : forall r, In r (firstn (b' - a') (skipn a' (rows (_data c)))) ->
                          length r = w).
  { intros r Hr. apply Hrect.
    apply (in_skipn a'). now apply (in_firstn (b' - a')). }
  split; [| split].
  - unfold __getitem__, bind, get, lift, ndarray_getitem.
    cbn [basic_getitem]. unfold rows_in.
    fold n w. rewrite !slice_indices_open by assumption. cbn [rbind].
    fold a' b' lo' hi'.
    rewrite select_range by (fold n; lia). rewrite length_seq.
    assert (Hmap : map (select (seq lo' (hi' - lo')))
                     (firstn (b' - a') (skipn a' (rows (_data c)))) =
                   map (fun r => firstn (hi' - lo') (skipn lo' r))
                     (firstn (b' - a') (skipn a' (rows (_data c))))).
    { apply map_ext_in. intros r Hr. apply select_range.
      rewrite (Hin r Hr). lia. }
    now rewrite Hmap.
  - unfold shape, sub. cbn [rows ncols].
    rewrite length_map, length_firstn, length_skipn. fold n. f_equal. lia.
  - unfold rectangular, sub. cbn [rows ncols]. apply Forall_forall.
    intros r' Hr'. apply in_map_iff in Hr'. destruct Hr' as [r [<- Hr]].
    rewrite length_firstn, length_skipn, (Hin r Hr). lia.
Qed.

(** *** The spline and the plot *)

Lemma bind_ok {St A B : Type} (m : M plt_call St A) (k : A -> M plt_call St B)
  (s s' : St) (p p' : proc plt_call) (a : A) :
  m s p = (Ok a, s', p') -> bind m k s p = k a s' p'.
Proof. intros H. unfold bind. now rewrite H. Qed.

Lemma bind_raise {St A B : Type} (m : M plt_call St A) (k : A -> M plt_call St B)
  (s s' : St) (p p' : proc plt_call) (e : exn) :
  m s p = (Raise e, s', p') -> bind m k s p = (Raise e, s', p').
Proof. intros H. unfold bind. now rewrite H. Qed.

Lemma len_after_init
  (times volts : list F) (errs : option (list F)) (c : VoltageData)
  (p : proc plt_call) :
  __init__ times volts errs = Ok c -> __len__ c p = (Ok (length times), c, p).
Proof.
  intros Hc. destruct (init_ok _ _ _ _ Hc) as [_ [Hrows _]].
  unfold __len__, num_rows, bind, get, ret. cbn [shape fst]. now rewrite Hrows.
Qed.

Lemma spline_after_init
  (times volts : list F) (errs : option (list F)) (c : VoltageData)
  (p : proc plt_call) :
  __init__ times volts errs = Ok c -> 3 < length times ->
  spline c p =
  (match InterpolatedUnivariateSpline (Array1 times) (Array1 volts) 3 with
   | Ok s => Ok (Some s)
   | Raise e => Raise e
   end, c, p).
Proof.
  intros Hc Hlen. unfold spline.
  rewrite (bind_ok _ _ _ _ _ _ _ (len_after_init _ _ _ _ p Hc)).
  apply Nat.ltb_lt in Hlen. rewrite Hlen.
  destruct (accessors_after_init _ _ _ _ p Hc) as [Ht [Hv _]].
  rewrite (bind_ok _ _ _ _ _ _ _ Ht), (bind_ok _ _ _ _ _ _ _ Hv).
  unfold bind, lift, ret.
  now destruct (InterpolatedUnivariateSpline (Array1 times) (Array1 volts) 3).
Qed.

Lemma call_after_init
  (times volts : list F) (errs : option (list F)) (c : VoltageData)
  (p : proc plt_call) (q : value) :
  __init__ times volts errs = Ok c -> 3 < length times ->
  __call__ q c p =
  (s <~ InterpolatedUnivariateSpline (Array1 times) (Array1 volts) 3 ;;
   spline_call s q, c, p).
Proof.
  intros Hc Hlen. unfold __call__, bind.
  rewrite (spline_after_init _ _ _ _ p Hc Hlen).
  now destruct (InterpolatedUnivariateSpline (Array1 times) (Array1 volts) 3).
Qed.

(** X7: on a container built from more than 3 points, [spline] prints nothing
    and passes exactly the times and the voltages it was built from to
    [InterpolatedUnivariateSpline], with degree 3 (errors play no part); it
    returns that spline or raises what scipy raised, and [__call__] is that
    spline applied to the query. *)
Theorem X7_spline_uses_times_and_voltages
  (times volts : list F) (errs : option (list F)) (c : VoltageData)
  (p : proc plt_call) (q : value) :
  __init__ times volts errs = Ok c -> 3 < length times ->
  spline c p =
  (match InterpolatedUnivariateSpline (Array1 times) (Array1 volts) 3 with
   | Ok s => Ok (Some s)
   | Raise e => Raise e
   end, c, p) /\
  __call__ q c p =
  (s <~ InterpolatedUnivariateSpline (Array1 times) (Array1 volts) 3 ;;
   spline_call s q, c, p).
Proof.
  intros Hc Hlen. split.
  - exact (spline_after_init _ _ _ _ p Hc Hlen).
  - exact (call_after_init _ _ _ _ p q Hc Hlen).
Qed.

(** X8: on a container of at most 3 points, [plot] draws the points and the
    decorations only: it does not evaluate the spline, so it prints no
    diagnostic and does not raise, and it returns the axes it drew on. *)
Theorem X8_plot_few_points
  (times volts : list F) (errs : option (list F)) (c : VoltageData)
  (p : proc plt_call) (ax : option Axes) (fmt : string) :
  __init__ times volts errs = Ok c -> length times <= 3 ->
  plot ax fmt c p =
  (Ok (plot_result ax), c,
   mkProc (stdout p)
     (pyplot p ++ plot_target ax
               :: plt_plot (Array1 times) (Array1 volts) (Some fmt) None
               :: plot_decorations)).
Proof.
  intros Hc Hlen. unfold plot.
  assert (Hfirst : forall (k : axes_ref -> Meth axes_ref),
    bind (match ax with
          | Some a => plt (plt_sca a) ;; ret (GivenAxes a)
          | None => plt (plt_figure "voltage_vs_time") ;;
                    ret (NewFigure "voltage_vs_time")
          end) k c p =
    k (plot_result ax) c (mkProc (stdout p) (pyplot p ++ [plot_target ax]))).
  { intros k. now destruct ax. }
  rewrite Hfirst.
  destruct (accessors_after_init _ _ _ _
              (mkProc (stdout p) (pyplot p ++ [plot_target ax])) Hc) as [Ht [Hv _]].
  rewrite (bind_ok _ _ _ _ _ _ _ Ht), (bind_ok _ _ _ _ _ _ _ Hv).
  unfold bind at 1. unfold plt at 1. cbn [stdout pyplot].
  rewrite (bind_ok _ _ _ _ _ _ _ (len_after_init _ _ _ _ _ Hc)).
  assert (H3 : (3 <? length times)%nat = false) by (apply Nat.ltb_ge; lia).
  rewrite H3. unfold bind, plt, ret. cbn [stdout pyplot].
  unfold plot_decorations. rewrite <- !app_assoc. reflexivity.
Qed.

(** X9: on a container of more than 3 points, when scipy builds the spline
    and evaluates it at the times, [plot] draws the points, then the spline
    values over the same times under the label [Cubic spline], then the
    legend and the decorations. *)
Theorem X9_plot_with_spline
  (times volts : list F) (errs : option (list F)) (c : VoltageData)
  (p : proc plt_call) (ax : option Axes) (fmt : string) (s : Spline) (y : value) :
  __init__ times volts errs = Ok c -> 3 < length times ->
  InterpolatedUnivariateSpline (Array1 times) (Array1 volts) 3 = Ok s ->
  spline_call s (Array1 times) = Ok y ->
  plot ax fmt c p =
  (Ok (plot_result ax), c,
   mkProc (stdout p)
     (pyplot p ++ plot_target ax
               :: plt_plot (Array1 times) (Array1 volts) (Some fmt) None
               :: plt_plot (Array1 times) y None (Some "Cubic spline")
               :: plt_legend
               :: plot_decorations)).
Proof.
  intros Hc Hlen Hs Hy. unfold plot.
  assert (Hfirst : forall (k : axes_ref -> Meth axes_ref),
    bind (match ax with
          | Some a => plt (plt_sca a) ;; ret (GivenAxes a)
          | None => plt (plt_figure "voltage_vs_time") ;;
                    ret (NewFigure "voltage_vs_time")
          end) k c p =
    k (plot_result ax) c (mkProc (stdout p) (pyplot p ++ [plot_target ax]))).
  { intros k. now destruct ax. }
  rewrite Hfirst.
  destruct (accessors_after_init _ _ _ _
              (mkProc (stdout p) (pyplot p ++ [plot_target ax])) Hc) as [Ht [Hv _]].
  rewrite (bind_ok _ _ _ _ _ _ _ Ht), (bind_ok _ _ _ _ _ _ _ Hv).
  unfold bind at 1. unfold plt at 1. cbn [stdout pyplot].
  rewrite (bind_ok _ _ _ _ _ _ _ (len_after_init _ _ _ _ _ Hc)).
  pose proof Hlen as Hlt. apply Nat.ltb_lt in Hlt. rewrite Hlt.
  unfold bind at 1. unfold bind at 1.
  destruct (accessors_after_init _ _ _ _
              (mkProc (stdout p)
                 ((pyplot p ++ [plot_target ax]) ++
                  [plt_plot (Array1 times) (Array1 volts) (Some fmt) None])) Hc)
    as [Ht' _].
  rewrite Ht'. unfold bind at 1. rewrite Ht'. unfold bind at 1.
  rewrite (call_after_init _ _ _ _ _ (Array1 times) Hc Hlen), Hs. cbn [rbind].
  rewrite Hy. unfold bind, plt, ret. cbn [stdout pyplot].
  unfold plot_decorations. rewrite <- !app_assoc. reflexivity.
Qed.

(** *** The renderings *)

(** A pass whose body only computes: row [k] of the table gives [h k row]. *)
Lemma for_rows_pure {A : Type} (g : nat -> value -> res A) (h : nat -> list F -> A)
  (c : VoltageData) (p : proc plt_call) :
  rectangular (_data c) ->
  forall (suf pre : list (list F)) (count : nat),
    rows (_data c) = (pre ++ suf)%list ->
    (forall k r, In r suf -> g k (Array1 r) = Ok (h k r)) ->
    for_rows count (seq (length pre) (length suf)) (fun i row => lift (g i row)) c p =
    (Ok (imap h count suf), c, p).
Proof.
  intros Hrect suf. induction suf as [| r suf IH]; intros pre count Hrows Hg.
  - reflexivity.
  - cbn [length seq for_rows imap]. unfold bind at 1. unfold get at 1.
    unfold bind at 1. unfold lift at 1.
    rewrite (getitem_row (_data c) (length pre) r Hrect)
      by (rewrite Hrows, nth_error_app2 by lia; now rewrite Nat.sub_diag).
    unfold bind at 1. unfold lift at 1. rewrite (Hg count r) by now left.
    specialize (IH (pre ++ [r])%list (S count)).
    rewrite length_app in IH. cbn [length] in IH. rewrite Nat.add_1_r in IH.
    unfold bind at 1. rewrite IH.
    + reflexivity.
    + now rewrite <- app_assoc.
    + intros k r' Hr'. apply Hg. now right.
Qed.

Lemma imap_const {A B : Type} (h : A -> B) (l : list A) (k : nat) :
  imap (fun _ x => h x) k l = map h l.
Proof.
  revert k. induction l as [| x l IH]; intros k; cbn [imap map]; [reflexivity |].
  now rewrite IH.
Qed.

Lemma string_app_nil (s : string) : s ++ "" = s.
Proof. induction s as [| ch s IH]; cbn [append]; [reflexivity | now rewrite IH]. Qed.

(** [" ".join("{}" ...).format( *cells)] is the cells joined by spaces. *)
Lemma str_format_plain (show : F -> string) (cells : list F) (k : nat) :
  (forall x, format "" (AVal (Scalar x)) = Ok (show x)) ->
  str_format_from k (join_segs " " (repeat (Field "") (length cells)))
    (map AVal (map Scalar cells)) =
  Ok (join " " (map show cells)).
Proof.
  intros Hshow. revert k.
  induction cells as [| x cells IH]; intros k; [reflexivity |].
  destruct cells as [| y cells].
  - cbn [length repeat join_segs map str_format_from]. rewrite Hshow.
    cbn [rbind join String.concat]. now rewrite string_app_nil.
  - change (join_segs " " (repeat (Field "") (length (x :: y :: cells))))
      with (Field "" :: Lit " "
              :: join_segs " " (repeat (Field "") (length (y :: cells)))).
    change (map AVal (map Scalar (x :: y :: cells)))
      with (AVal (Scalar x) :: map AVal (map Scalar (y :: cells))).
    cbn [str_format_from]. rewrite Hshow. cbn [rbind].
    rewrite (IH (S k)). reflexivity.
Qed.

(** X10: when [format] renders every cell, [__repr__] returns one line per
    row, in row order, each line being the cells of the row separated by
    single spaces, and the lines joined by newlines (the empty string for a
    container without rows). *)
Theorem X10_repr_lines
  (show : F -> string) (c : VoltageData) (p : proc plt_call) :
  rectangular (_data c) ->
  (forall x, format "" (AVal (Scalar x)) = Ok (show x)) ->
  __repr__ c p =
  (Ok (join newline (map (fun r => join " " (map show r)) (rows (_data c)))), c, p).
Proof.
  intros Hrect Hshow. unfold __repr__, __iter__, __len__, num_rows, num_columns.
  unfold bind at 1. unfold bind at 1. unfold get at 1, ret at 1. cbn [shape snd].
  unfold bind at 1. unfold bind at 1. unfold bind at 1.
  unfold get at 1, ret at 1. cbn [shape fst].
  pose proof (for_rows_pure
                (fun _ row =>
                   args <~ iter_value row ;;
                   str_format (join_segs " " (repeat (Field "") (ncols (_data c))))
                     (map AVal args))
                (fun _ r => join " " (map show r)) c p Hrect
                (rows (_data c)) [] 0 eq_refl) as Hfor.
  cbn [length] in Hfor. rewrite Hfor.
  - unfold ret. now rewrite imap_const.
  - intros k r Hr. cbn [iter_value rbind]. unfold str_format.
    unfold rectangular in Hrect. rewrite Forall_forall in Hrect.
    rewrite <- (Hrect r Hr). now apply str_format_plain.
Qed.


(** *** More on [from_file] *)

Lemma filter_length_zero {A : Type} (f : A -> bool) (xs : list A) :
  (forall x, In x xs -> f x = false) -> length (filter f xs) = 0.
Proof.
  intros H. induction xs as [| x xs IH]; [reflexivity |].
  rewrite filter_length_cons, (H x) by now left.
  rewrite IH; [reflexivity |]. intros y Hy. apply H. now right.
Qed.

Lemma filter_length_zero_inv {A : Type} (f : A -> bool) (xs : list A) (x : A) :
  length (filter f xs) = 0 -> In x xs -> f x = false.
Proof.
  intros Hz Hx. destruct (f x) eqn:E; [| reflexivity].
  assert (Hin : In x (filter f xs)) by (apply filter_In; auto).
  destruct (filter f xs); [contradiction | discriminate].
Qed.

(** X12: [from_file] returns a container exactly when the retained lines of
    the file all have an error field that parses or none has one; for any
    other file the constructor raises a [ValueError]. *)
Theorem X12_from_file_returns_iff_uniform
  (file : list string) (l : locals) (p : proc plt_call) :
  ((exists c l' p', from_file file l p = (Ok c, l', p')) <-> uniform file) /\
  (~ uniform file -> exists m l' p', from_file file l p = (Raise (ValueError m), l', p')).
Proof.
  destruct (from_file_eq file l p) as [l' [p' [_ [Ht [Hv [Hdv Hfrom]]]]]].
  pose proof (retained_split file) as Hsplit.
  assert (Hcases : length (filter with_error file) = 0 \/
                   length (filter without_error file) = 0 <-> uniform file).
  { unfold uniform. split; intros [H | H].
    - right. intros line Hin Hr.
      pose proof (filter_length_zero_inv _ _ line H Hin) as Hw.
      unfold with_error in Hw. rewrite Hr in Hw. exact Hw.
    - left. intros line Hin Hr.
      pose proof (filter_length_zero_inv _ _ line H Hin) as Hw.
      unfold without_error in Hw. rewrite Hr in Hw. cbn [andb] in Hw.
      now destruct (parses line 2).
    - right. apply filter_length_zero. intros line Hin. unfold without_error.
      destruct (retained line) eqn:Hr; [| reflexivity].
      now rewrite (H line Hin Hr).
    - left. apply filter_length_zero. intros line Hin. unfold with_error.
      destruct (retained line) eqn:Hr; [| reflexivity].
      now rewrite (H line Hin Hr). }
  assert (Hok : length (filter with_error file) = 0 \/
                length (filter without_error file) = 0 ->
                exists c, from_file file l p = (Ok c, l', p')).
  { intros Hu. rewrite Hfrom.
    destruct (Nat.eqb_spec (length (dv l')) 0) as [Hz | Hnz]; cbn [negb].
    - eexists. rewrite init_table; [reflexivity |]. split; [lia | exact I].
    - eexists. rewrite init_table; [reflexivity |]. split; lia. }
  assert (Hbad : ~ (length (filter with_error file) = 0 \/
                    length (filter without_error file) = 0) ->
                 exists m, from_file file l p = (Raise (ValueError m), l', p')).
  { intros Hno. rewrite Hfrom.
    destruct (Nat.eqb_spec (length (dv l')) 0) as [Hz | Hnz]; [lia |]. cbn [negb].
    destruct (init_short_errors (t l') (v l') (dv l')) as [m Hm]; [lia | lia |].
    exists m. now rewrite Hm. }
  split; [split |].
  - intros [c [l1 [p1 Hc]]]. apply Hcases.
    destruct (Nat.eq_dec (length (filter with_error file)) 0) as [H0 | H0];
      [now left |].
    destruct (Nat.eq_dec (length (filter without_error file)) 0) as [H1 | H1];
      [now right |].
    destruct Hbad as [m Hm]; [lia |]. rewrite Hm in Hc. discriminate.
  - intros Hu. apply Hcases in Hu. destruct (Hok Hu) as [c Hc]. now exists c, l', p'.
  - intros Hno. destruct Hbad as [m Hm].
    + intros Hu. apply Hno, Hcases, Hu.
    + now exists m, l', p'.
Qed.

Lemma line_step_locals_indep
  (i j : nat) (line : string) (l : locals) (p q : proc plt_call) :
  snd (fst (line_step i line l p)) = snd (fst (line_step j line l q)).
Proof.
  rewrite !line_step_eq.
  destruct (startswith "#" line); [reflexivity |].
  destruct (nth_error (fields line) 0) as [s0 |]; [| reflexivity].
  destruct (float s0); [| reflexivity].
  destruct (nth_error (fields line) 1) as [s1 |]; [| reflexivity].
  destruct (float s1); [| reflexivity].
  destruct (nth_error (fields line) 2) as [s2 |]; [| reflexivity].
  now destruct (float s2).
Qed.

Lemma line_step_not_retained
  (i : nat) (line : string) (l : locals) (p : proc plt_call) :
  retained line = false -> snd (fst (line_step i line l p)) = l.
Proof.
  intros Hr. rewrite line_step_eq. unfold retained, parses in Hr.
  destruct (startswith "#" line); [reflexivity |]. cbn [negb andb] in Hr.
  destruct (nth_error (fields line) 0) as [s0 |]; [| reflexivity].
  destruct (float s0); [| reflexivity]. cbn [andb] in Hr.
  destruct (nth_error (fields line) 1) as [s1 |]; [| reflexivity].
  destruct (float s1); [discriminate | reflexivity].
Qed.

Lemma read_lines_locals_retained (file : list string) :
  forall (i j : nat) (l : locals) (p q : proc plt_call),
    snd (fst (read_lines i file l p)) =
    snd (fst (read_lines j (filter retained file) l q)).
Proof.
  induction file as [| line rest IH]; intros i j l p q; [reflexivity |].
  cbn [read_lines filter].
  destruct (line_step_len i line l p) as [l1 [p1 [Hstep _]]].
  unfold bind at 1. rewrite Hstep.
  destruct (retained line) eqn:Hr.
  - cbn [read_lines].
    destruct (line_step_len j line l q) as [l2 [q2 [Hstep2 _]]].
    unfold bind at 1. rewrite Hstep2.
    pose proof (line_step_locals_indep i j line l p q) as Hsame.
    rewrite Hstep, Hstep2 in Hsame. cbn [fst snd] in Hsame. subst l2.
    apply IH.
  - pose proof (line_step_not_retained i line l p Hr) as Hl.
    rewrite Hstep in Hl. cbn [fst snd] in Hl. subst l1.
    apply IH.
Qed.

(** X13: what [from_file] returns depends on the retained lines only:
    removing the comments and every line that was dropped (blank, with a
    missing value, or with a time or value that is no number) gives the same
    container, or the same exception, and the same three lists. *)
Theorem X13_dropped_lines_leave_no_trace
  (file : list string) (l : locals) (p q : proc plt_call) :
  fst (from_file file l p) = fst (from_file (filter retained file) l q).
Proof.
  destruct (from_file_eq file l p) as [l1 [p1 [Hread1 [_ [_ [_ Hfrom1]]]]]].
  destruct (from_file_eq (filter retained file) l q)
    as [l2 [p2 [Hread2 [_ [_ [_ Hfrom2]]]]]].
  pose proof (read_lines_locals_retained file 0 0 (mk_locals [] [] []) p q) as Hsame.
  rewrite Hread1, Hread2 in Hsame. cbn [fst snd] in Hsame. subst l2.
  now rewrite Hfrom1, Hfrom2.
Qed.

(** *** Stripping and splitting *)

Lemma isspace_not_tab (c : ascii) : isspace c = false -> Ascii.eqb c tab = false.
Proof.
  intros H. destruct (Ascii.eqb_spec c tab) as [-> | _]; [| reflexivity].
  vm_compute in H. discriminate.
Qed.

Lemma isspace_not_newline (c : ascii) : isspace c = false -> mem_char c newline = false.
Proof.
  intros H. unfold newline. cbn [mem_char]. rewrite orb_false_r.
  destruct (Ascii.eqb_spec c "010") as [-> | _]; [| reflexivity].
  vm_compute in H. discriminate.
Qed.

Lemma isspace_not_hash (c : ascii) (r : string) :
  isspace c = true -> startswith "#" (String c r) = false.
Proof.
  intros H. unfold startswith. cbn [String.prefix].
  destruct (ascii_dec "#" c) as [<- | _]; [| reflexivity].
  vm_compute in H. discriminate.
Qed.

Lemma all_chars_impl (f g : ascii -> bool) (s : string) :
  (forall c, f c = true -> g c = true) -> all_chars f s = true -> all_chars g s = true.
Proof.
  intros Hfg. induction s as [| c r IH]; cbn [all_chars]; [reflexivity |].
  intros H. apply andb_prop in H. destruct H as [Hc Hr].
  now rewrite (Hfg c Hc), IH.
Qed.

Lemma rstrip_by_snoc (p : ascii -> bool) (s : string) (c : ascii) :
  p c = true -> rstrip_by p (s ++ String c "") = rstrip_by p s.
Proof.
  intros Hc. induction s as [| a s IH]; cbn [append rstrip_by].
  - now rewrite Hc.
  - now rewrite IH.
Qed.

Lemma rstrip_by_fixed_app (p : ascii -> bool) (a b : string) :
  rstrip_by p b = b -> b <> "" -> rstrip_by p (a ++ b) = a ++ b.
Proof.
  intros Hb Hne. induction a as [| c a IH]; cbn [append rstrip_by]; [exact Hb |].
  rewrite IH. destruct (a ++ b) eqn:E; [| reflexivity].
  destruct a; cbn [append] in E; [contradiction | discriminate].
Qed.

Lemma rstrip_by_free (p : ascii -> bool) (s : string) :
  all_chars (fun c => negb (p c)) s = true -> rstrip_by p s = s.
Proof.
  induction s as [| c r IH]; cbn [all_chars rstrip_by]; [reflexivity |].
  intros H. apply andb_prop in H. destruct H as [Hc Hr].
  rewrite (IH Hr). apply negb_true_iff in Hc. rewrite Hc.
  now destruct r.
Qed.

Lemma join_cons2 (sep x y : string) (l : list string) :
  join sep (x :: y :: l) = x ++ sep ++ join sep (y :: l).
Proof. reflexivity. Qed.

(** A joined row of cells free of [p] is untouched by stripping [p]. *)
Lemma strip_by_join (p : ascii -> bool) (sep : string) (cells : list string) :
  cells <> [] ->
  Forall (fun s => s <> "" /\ all_chars (fun c => negb (p c)) s = true) cells ->
  join sep cells <> "" /\
  rstrip_by p (join sep cells) = join sep cells /\
  lstrip_by p (join sep cells) = join sep cells /\
  forall tail, lstrip_by p (join sep cells ++ tail) = join sep cells ++ tail.
Proof.
  intros Hne Hall. induction Hall as [| x rest [Hx Hfree] Hrest IH]; [contradiction |].
  assert (Hhead : exists c r, x = String c r /\ p c = false).
  { destruct x as [| c r]; [contradiction |]. exists c, r. split; [reflexivity |].
    cbn [all_chars] in Hfree. apply andb_prop in Hfree.
    now apply negb_true_iff. }
  destruct Hhead as [c [r [-> Hc]]].
  destruct rest as [| y rest].
  - cbn [join String.concat]. repeat split.
    + discriminate.
    + now apply rstrip_by_free.
    + cbn [lstrip_by]. now rewrite Hc.
    + intros tail. cbn [append lstrip_by]. now rewrite Hc.
  - destruct IH as [IHne [IHr _]]; [discriminate |].
    rewrite join_cons2. repeat split.
    + discriminate.
    + apply rstrip_by_fixed_app.
      * now apply rstrip_by_fixed_app.
      * destruct sep; cbn [append]; [exact IHne | discriminate].
    + cbn [append lstrip_by]. now rewrite Hc.
    + intros tail. cbn [append lstrip_by]. now rewrite Hc.
Qed.

Lemma split_free (sep : ascii) (s : string) :
  all_chars (fun c => negb (Ascii.eqb c sep)) s = true -> split sep s = [s].
Proof.
  induction s as [| c r IH]; cbn [all_chars split]; [reflexivity |].
  intros H. apply andb_prop in H. destruct H as [Hc Hr].
  apply negb_true_iff in Hc. now rewrite Hc, (IH Hr).
Qed.

Lemma split_app (sep : ascii) (s rest : string) :
  all_chars (fun c => negb (Ascii.eqb c sep)) s = true ->
  split sep (s ++ String sep rest) = s :: split sep rest.
Proof.
  induction s as [| c r IH]; cbn [all_chars append split].
  - intros _. now rewrite Ascii.eqb_refl.
  - intros H. apply andb_prop in H. destruct H as [Hc Hr].
    apply negb_true_iff in Hc. now rewrite Hc, (IH Hr).
Qed.

Lemma split_join (sep : ascii) (cells : list string) :
  cells <> [] ->
  Forall (fun s => all_chars (fun c => negb (Ascii.eqb c sep)) s = true) cells ->
  split sep (join (String sep "") cells) = cells.
Proof.
  intros Hne Hall. induction Hall as [| x rest Hx Hrest IH]; [contradiction |].
  destruct rest as [| y rest].
  - cbn [join String.concat]. now apply split_free.
  - rewrite join_cons2. cbn [append].
    rewrite split_app by exact Hx. now rewrite IH.
Qed.

Lemma clean_spec (s : string) :
  clean s = true -> s <> "" /\ all_chars (fun c => negb (isspace c)) s = true.
Proof. destruct s; [discriminate |]. intros H. split; [discriminate | exact H]. Qed.

(** The fields of a line written from clean cells are those cells. *)
Lemma fields_tsv (cells : list string) :
  cells <> [] -> Forall (fun s => clean s = true) cells ->
  fields (tsv cells) = cells.
Proof.
  intros Hne Hclean. unfold fields, tsv, strip, strip_chars.
  assert (Hspace : Forall (fun s => s <> "" /\
                     all_chars (fun c => negb (isspace c)) s = true) cells).
  { eapply Forall_impl; [| exact Hclean]. intros s Hs. now apply clean_spec. }
  assert (Hnl : Forall (fun s => s <> "" /\
                  all_chars (fun c => negb (mem_char c newline)) s = true) cells).
  { eapply Forall_impl; [| exact Hspace]. intros s [Hs Hfree]. split; [exact Hs |].
    eapply all_chars_impl; [| exact Hfree]. intros c Hc.
    apply negb_true_iff in Hc. apply negb_true_iff. now apply isspace_not_newline. }
  assert (Htab : Forall (fun s =>
                   all_chars (fun c => negb (Ascii.eqb c tab)) s = true) cells).
  { eapply Forall_impl; [| exact Hspace]. intros s [_ Hfree].
    eapply all_chars_impl; [| exact Hfree]. intros c Hc.
    apply negb_true_iff in Hc. apply negb_true_iff. now apply isspace_not_tab. }
  destruct (strip_by_join isspace (String tab "") cells Hne Hspace)
    as [_ [Hr [_ Hl]]].
  destruct (strip_by_join (fun c => mem_char c newline) (String tab "") cells Hne Hnl)
    as [_ [Hr' [Hl' _]]].
  rewrite Hl.
  change (join (String tab "") cells ++ newline)
    with (join (String tab "") cells ++ String "010" "").
  rewrite rstrip_by_snoc by reflexivity.
  rewrite Hr, Hl', Hr'. now apply split_join.
Qed.

(** *** Reading back a well-formed file *)

Lemma line_step_good
  (w : nat) (r : list (string * F)) (i : nat) (l : locals) (p : proc plt_call) :
  w = 2 \/ w = 3 -> good_row w r ->
  line_step i (line_of r) l p =
  (Ok tt,
   mk_locals (t l ++ select [0] (map snd r)) (v l ++ select [1] (map snd r))
             (dv l ++ select [2] (map snd r)),
   p).
Proof.
  intros Hw [Hlen [Hcells Hcomment]].
  assert (Hfields : fields (line_of r) = map fst r).
  { apply fields_tsv.
    - destruct r; [cbn [length] in Hlen; lia | discriminate].
    - apply Forall_map. eapply Forall_impl; [| exact Hcells]. now intros sx [Hc _]. }
  rewrite line_step_eq. unfold line_of in *. rewrite Hcomment, Hfields.
  rewrite !select_one.
  destruct r as [| [s0 x0] [| [s1 x1] [| [s2 x2] [| sx r]]]];
    cbn [length] in Hlen; try lia.
  - inversion Hcells as [| ? ? [_ H0] Hc1]; subst.
    inversion Hc1 as [| ? ? [_ H1] _]; subst.
    cbn [fst snd] in H0, H1. cbn [map nth_error fst snd]. rewrite H0, H1.
    cbv zeta. now rewrite app_nil_r.
  - inversion Hcells as [| ? ? [_ H0] Hc1]; subst.
    inversion Hc1 as [| ? ? [_ H1] Hc2]; subst.
    inversion Hc2 as [| ? ? [_ H2] _]; subst.
    cbn [fst snd] in H0, H1, H2. cbn [map nth_error fst snd].
    now rewrite H0, H1, H2.
Qed.

Lemma read_lines_good (w : nat) (table : list (list (string * F))) :
  w = 2 \/ w = 3 -> Forall (good_row w) table ->
  forall (i : nat) (l : locals) (p : proc plt_call),
    read_lines i (map line_of table) l p =
    (Ok tt,
     mk_locals (t l ++ flat_map (select [0]) (map (map snd) table))
               (v l ++ flat_map (select [1]) (map (map snd) table))
               (dv l ++ flat_map (select [2]) (map (map snd) table)),
     p).
Proof.
  intros Hw Hall. induction Hall as [| r table Hr Htable IH]; intros i l p.
  - cbn [map flat_map read_lines]. unfold ret. rewrite !app_nil_r. now destruct l.
  - cbn [map flat_map read_lines]. unfold bind at 1.
    rewrite (line_step_good w r i l p Hw Hr), IH. cbn [t v dv].
    now rewrite <- !app_assoc.
Qed.

Lemma table2_columns (rs : list (list F)) :
  Forall (fun r => length r = 2) rs ->
  table2 (flat_map (select [0]) rs) (flat_map (select [1]) rs) = rs.
Proof.
  intros Hall. induction Hall as [| r rs Hr Hrs IH]; [reflexivity |].
  destruct r as [| x [| y [| z r]]]; cbn [length] in Hr; try discriminate.
  cbn [flat_map]. rewrite !select_one. cbn [nth_error app].
  unfold table2 in *. cbn [combine map fst snd]. now rewrite IH.
Qed.

Lemma table3_columns (rs : list (list F)) :
  Forall (fun r => length r = 3) rs ->
  table3 (flat_map (select [0]) rs) (flat_map (select [1]) rs)
         (flat_map (select [2]) rs) = rs.
Proof.
  intros Hall. induction Hall as [| r rs Hr Hrs IH]; [reflexivity |].
  destruct r as [| x [| y [| z [| u r]]]]; cbn [length] in Hr; try discriminate.
  cbn [flat_map]. rewrite !select_one. cbn [nth_error app].
  unfold table3 in *. cbn [combine map fst snd]. now rewrite IH.
Qed.

(** X14: a file written from a table of 2 or of 3 columns, one line per row
    with the cells separated by tabs, each cell a clean text that [float]
    reads as the value of the cell, is read back as that table: [from_file]
    returns the container of those rows in order and prints nothing. *)
Theorem X14_well_formed_file_is_read_back
  (w : nat) (table : list (list (string * F))) (l : locals) (p : proc plt_call) :
  w = 2 \/ w = 3 -> table <> [] -> Forall (good_row w) table ->
  exists l',
    from_file (map line_of table) l p =
    (Ok (mk_VoltageData (mk_ndarray w (map (map snd) table))), l', p).
Proof.
  intros Hw Hne Hall.
  set (rs := map (map snd) table).
  assert (Hlen : Forall (fun r => length r = w) rs).
  { unfold rs. apply Forall_map. eapply Forall_impl; [| exact Hall].
    intros r [Hr _]. now rewrite length_map. }
  assert (Hcol : forall j, (j < w)%nat -> length (flat_map (select [j]) rs) = length rs).
  { intros j Hj. now destruct (column_spec j rs w Hlen Hj). }
  exists (mk_locals (flat_map (select [0]) rs) (flat_map (select [1]) rs)
            (flat_map (select [2]) rs)).
  unfold from_file, bind at 1, modify. unfold bind at 1.
  rewrite (read_lines_good w table Hw Hall). fold rs. cbn [t v dv app].
  unfold bind, get, lift. cbn [t v dv].
  destruct Hw as [-> | ->].
  - assert (Hdv : flat_map (select [2]) rs = []).
    { clear Hcol. induction Hlen as [| r rs' Hr Hrs IH]; [reflexivity |].
      destruct r as [| x [| y [| z r]]]; cbn [length] in Hr; try discriminate.
      cbn [flat_map]. rewrite select_one. cbn [nth_error app]. exact IH. }
    rewrite Hdv. cbn [length Nat.eqb negb].
    rewrite init_table by (split; [rewrite !Hcol by lia; reflexivity | exact I]).
    cbn [table_of]. now rewrite table2_columns.
  - assert (Hpos : (length (flat_map (select [2]) rs) =? 0)%nat = false).
    { apply Nat.eqb_neq. rewrite Hcol by lia. unfold rs. rewrite length_map.
      destruct table; [contradiction | discriminate]. }
    rewrite Hpos. cbn [negb].
    rewrite init_table by (split; rewrite !Hcol by lia; reflexivity).
    cbn [table_of]. now rewrite table3_columns.
Qed.

(** *** The diagnostics *)

Lemma line_step_stdout (i : nat) (line : string) (l : locals) (p : proc plt_call) :
  exists extra, stdout (snd (line_step i line l p)) = (stdout p ++ extra)%list.
Proof.
  rewrite line_step_eq.
  destruct (startswith "#" line); [exists []; now rewrite app_nil_r |].
  destruct (nth_error (fields line) 0) as [s0 |]; [| exists []; now rewrite app_nil_r].
  destruct (float s0); [| eexists; reflexivity].
  destruct (nth_error (fields line) 1) as [s1 |]; [| exists []; now rewrite app_nil_r].
  destruct (float s1); [| eexists; reflexivity].
  destruct (nth_error (fields line) 2) as [s2 |];
    [| exists []; cbn [snd]; now rewrite app_nil_r].
  destruct (float s2); [exists []; cbn [snd]; now rewrite app_nil_r |].
  eexists; reflexivity.
Qed.

Lemma read_lines_stdout (file : list string) :
  forall (i : nat) (l : locals) (p : proc plt_call),
  exists extra, stdout (snd (read_lines i file l p)) = (stdout p ++ extra)%list.
Proof.
  induction file as [| line rest IH]; intros i l p.
  - exists []. cbn [read_lines]. unfold ret. cbn [snd]. now rewrite app_nil_r.
  - cbn [read_lines]. unfold bind.
    destruct (line_step_stdout i line l p) as [e1 He1].
    destruct (line_step_len i line l p) as [l1 [p1 [Hstep _]]].
    rewrite Hstep in He1 |- *. cbn [snd] in He1.
    destruct (IH (S i) l1 p1) as [e2 He2].
    exists (e1 ++ e2)%list. now rewrite He2, He1, app_assoc.
Qed.

Lemma read_lines_app (pre rest : list string) :
  forall (i : nat) (l : locals) (p : proc plt_call),
  exists l1 p1,
    read_lines i (pre ++ rest) l p = read_lines (i + length pre) rest l1 p1 /\
    exists extra, stdout p1 = (stdout p ++ extra)%list.
Proof.
  induction pre as [| line pre IH]; intros i l p.
  - exists l, p. cbn [app length]. rewrite Nat.add_0_r. split; [reflexivity |].
    exists []. now rewrite app_nil_r.
  - cbn [app read_lines length]. unfold bind at 1.
    destruct (line_step_stdout i line l p) as [e1 He1].
    destruct (line_step_len i line l p) as [l1 [p1 [Hstep _]]].
    rewrite Hstep in He1 |- *. cbn [snd] in He1.
    destruct (IH (S i) l1 p1) as [l2 [p2 [Hrest [e2 He2]]]].
    exists l2, p2. rewrite Hrest. split; [f_equal; lia |].
    exists (e1 ++ e2)%list. now rewrite He2, He1, app_assoc.
Qed.

(** X15: the number in a diagnostic is the position of the line in the file,
    counted from 0 over all lines, comments and dropped lines included: a
    line that is no comment and on which [float] fails with message [m],
    standing after [pre] in the file, leaves [Line <length pre> error: m] on
    the standard output of [from_file]. *)
Theorem X15_diagnostic_names_the_line
  (pre post : list string) (line m : string) (l : locals) (p : proc plt_call) :
  startswith "#" line = false ->
  non_numeric line m \/
  (retained line = true /\
   exists s2, nth_error (fields line) 2 = Some s2 /\ float s2 = inr m) ->
  In (diagnostic (length pre) m ++ newline)
     (stdout (snd (from_file (pre ++ line :: post) l p))).
Proof.
  intros Hcomment Hbad.
  destruct (from_file_eq (pre ++ line :: post) l p)
    as [l' [p' [Hread [_ [_ [_ Hfrom]]]]]].
  rewrite Hfrom. cbn [snd].
  destruct (read_lines_app pre (line :: post) 0 (mk_locals [] [] []) p)
    as [l1 [p1 [Happ [e1 He1]]]].
  rewrite Happ in Hread. cbn [Nat.add read_lines] in Hread.
  unfold bind at 1 in Hread.
  assert (Hstep : exists l2,
             line_step (length pre) line l1 p1 =
             (Ok tt, l2, printed p1 (diagnostic (length pre) m))).
  { rewrite line_step_eq, Hcomment.
    destruct Hbad as [[s0 [Hs0 Hm]] | [Hret [s2 [Hs2 Hm]]]].
    - rewrite Hs0. destruct Hm as [Hm | [x0 [s1 [Hx0 [Hs1 Hm]]]]].
      + rewrite Hm. eauto.
      + rewrite Hx0, Hs1, Hm. eauto.
    - unfold retained, parses in Hret. rewrite Hcomment in Hret.
      cbn [negb andb] in Hret.
      destruct (nth_error (fields line) 0) as [s0 |]; [| discriminate].
      destruct (float s0); [| discriminate]. cbn [andb] in Hret.
      destruct (nth_error (fields line) 1) as [s1 |]; [| discriminate].
      destruct (float s1); [| discriminate].
      rewrite Hs2, Hm. eauto. }
  destruct Hstep as [l2 Hstep]. rewrite Hstep in Hread.
  destruct (read_lines_stdout post (S (length pre)) l2
              (printed p1 (diagnostic (length pre) m))) as [e2 He2].
  rewrite Hread in He2. cbn [snd] in He2. rewrite He2.
  unfold printed. cbn [stdout].
  apply in_or_app. left. apply in_or_app. right. now left.
Qed.

Lemma lstrip_blank (s : string) : blank s = true -> lstrip_by isspace s = "".
Proof.
  unfold blank. induction s as [| c r IH]; cbn [all_chars lstrip_by]; [reflexivity |].
  intros H. apply andb_prop in H. destruct H as [Hc Hr]. now rewrite Hc, IH.
Qed.

(** X16: a line of white space only (an empty line included) is not skipped
    in silence: its only field is the empty string, so the loop keeps
    nothing of it and prints the diagnostic of [float] on the empty string;
    were [float] to accept the empty string, the line would be dropped for
    its missing value without a word. *)
Theorem X16_blank_line_is_reported
  (i : nat) (line : string) (l : locals) (p : proc plt_call) :
  blank line = true ->
  fields line = [EmptyString] /\
  line_step i line l p =
  match float "" with
  | inr m => (Ok tt, l, printed p (diagnostic i m))
  | inl _ => (Ok tt, l, p)
  end.
Proof.
  intros Hblank.
  assert (Hfields : fields line = [EmptyString]).
  { unfold fields, strip. now rewrite lstrip_blank. }
  split; [exact Hfields |].
  assert (Hcomment : startswith "#" line = false).
  { destruct line as [| c r]; [reflexivity |]. apply isspace_not_hash.
    unfold blank in Hblank. cbn [all_chars] in Hblank.
    now apply andb_prop in Hblank. }
  rewrite line_step_eq, Hcomment, Hfields. cbn [nth_error].
  now destruct (float "").
Qed.

(** X17: white space at the start of a line is dropped before the fields are
    split, a tab included: a line that starts with a tab, that is with an
    empty time field, is read as if the tab were not there, so its remaining
    fields move one place to the left. *)
Theorem X17_leading_white_space_is_dropped
  (c : ascii) (i : nat) (line : string) (l : locals) (p : proc plt_call) :
  isspace c = true -> startswith "#" line = false ->
  fields (String c line) = fields line /\
  line_step i (String c line) l p = line_step i line l p.
Proof.
  intros Hc Hcomment.
  assert (Hfields : fields (String c line) = fields line).
  { unfold fields, strip. cbn [lstrip_by]. now rewrite Hc. }
  split; [exact Hfields |].
  unfold line_step. now rewrite (isspace_not_hash c line Hc), Hcomment, Hfields.
Qed.

Lemma rstrip_by_all (p : ascii -> bool) (w : string) :
  all_chars p w = true -> rstrip_by p w = "".
Proof.
  induction w as [| c r IH]; cbn [all_chars rstrip_by]; [reflexivity |].
  intros H. apply andb_prop in H. destruct H as [Hc Hr]. now rewrite (IH Hr), Hc.
Qed.

Lemma rstrip_by_app_all (p : ascii -> bool) (s w : string) :
  all_chars p w = true -> rstrip_by p (s ++ w) = rstrip_by p s.
Proof.
  intros Hw. induction s as [| a s IH]; cbn [append rstrip_by].
  - now apply rstrip_by_all.
  - now rewrite IH.
Qed.

(** White space after the last cell is stripped with the line terminator. *)
Lemma fields_padded (cells : list string) (pad : string) :
  cells <> [] -> Forall (fun s => clean s = true) cells -> blank pad = true ->
  fields (join (String tab "") cells ++ pad) = cells.
Proof.
  intros Hne Hclean Hpad.
  pose proof (fields_tsv cells Hne Hclean) as Htsv.
  unfold fields, tsv, strip in Htsv |- *.
  assert (Hspace : Forall (fun s => s <> "" /\
                     all_chars (fun c => negb (isspace c)) s = true) cells).
  { eapply Forall_impl; [| exact Hclean]. intros s Hs. now apply clean_spec. }
  destruct (strip_by_join isspace (String tab "") cells Hne Hspace) as [_ [_ [_ Hl]]].
  rewrite Hl in Htsv |- *.
  rewrite rstrip_by_app_all by exact Hpad.
  rewrite rstrip_by_app_all in Htsv by reflexivity.
  exact Htsv.
Qed.

(** X18: white space at the end of a line is dropped before the fields are
    split, tabs included: after clean cells, any run of tabs, blanks and line
    terminators reads as the bare line, so empty fields at the end of a line
    (an empty error field after the value, say) count as absent and draw no
    diagnostic. *)
Theorem X18_trailing_white_space_is_dropped
  (cells : list string) (pad : string) (i : nat) (l : locals) (p : proc plt_call) :
  cells <> [] -> Forall (fun s => clean s = true) cells -> blank pad = true ->
  fields (join (String tab "") cells ++ pad) = cells /\
  line_step i (join (String tab "") cells ++ pad) l p = line_step i (tsv cells) l p.
Proof.
  intros Hne Hclean Hpad.
  pose proof (fields_padded cells pad Hne Hclean Hpad) as Hfields.
  split; [exact Hfields |].
  unfold line_step. rewrite Hfields, (fields_tsv cells Hne Hclean).
  assert (Hhead : exists c r, join (String tab "") cells = String c r).
  { destruct cells as [| x rest]; [contradiction |].
    inversion Hclean as [| ? ? Hx _]; subst.
    destruct x as [| c r]; [discriminate |].
    destruct rest; cbn [join String.concat append]; eauto. }
  destruct Hhead as [c [r Hjoin]]. unfold tsv. rewrite Hjoin.
  unfold startswith. cbn [append String.prefix].
  assert (Hnil : forall s, String.prefix "" s = true) by (now intros []).
  now rewrite !Hnil.
Qed.

Lemma nth_error_firstn_lt {A : Type} (n k : nat) (xs : list A) :
  (k < n)%nat -> nth_error (firstn n xs) k = nth_error xs k.
Proof.
  revert k xs. induction n as [| n IH]; intros k xs Hk; [lia |].
  destruct xs as [| x xs]; [now destruct k |].
  destruct k as [| k]; [reflexivity |]. cbn [firstn nth_error]. apply IH. lia.
Qed.

(** X19: the loop reads the first three fields of a line and no more: two
    lines that are both comments or both not, and that agree on their first
    three fields, do the same to the lists and to the output, whatever
    further fields they have. *)
Theorem X19_fields_after_the_third_are_ignored
  (i : nat) (line1 line2 : string) (l : locals) (p : proc plt_call) :
  startswith "#" line1 = startswith "#" line2 ->
  firstn 3 (fields line1) = firstn 3 (fields line2) ->
  line_step i line1 l p = line_step i line2 l p.
Proof.
  intros Hcomment Hfirst.
  assert (Hnth : forall k, (k < 3)%nat ->
                           nth_error (fields line1) k = nth_error (fields line2) k).
  { intros k Hk. rewrite <- (nth_error_firstn_lt 3 k (fields line1)) by exact Hk.
    rewrite Hfirst. now apply nth_error_firstn_lt. }
  rewrite !line_step_eq, Hcomment, !(Hnth 0), !(Hnth 1), !(Hnth 2) by lia.
  reflexivity.
Qed.

End VoltageData.

Arguments mk_ndarray {F} ncols rows.
Arguments mk_VoltageData {F} _data.
Arguments mk_locals {F} t v dv.
Arguments Scalar {F} x.
Arguments Array1 {F} xs.
Arguments printed {F Axes} p text.
Arguments num_rows {F Axes} _ _.
Arguments num_columns {F Axes} _ _.
Arguments voltage_errs {F Axes} _ _.
Arguments iterate {F Axes} _ _.
Arguments spline {F Spline} InterpolatedUnivariateSpline {Axes} _ _.
Arguments __call__ {F Spline} InterpolatedUnivariateSpline spline_call {Axes} t _ _.
Arguments __init__ {F} times voltages voltage_errors.
Arguments from_file {F} float {Axes} file _ _.
Arguments read_lines {F} float {Axes} i file _ _.
Arguments line_step {F} float {Axes} i line _ _.
Arguments parses {F} float line k.
Arguments retained {F} float line.
Arguments with_error {F} float line.
Arguments without_error {F} float line.

(** ** The claims on concrete inputs

    Cells are read by [PyFloat.float]; the spline builder and the axes are
    stand-ins, which the runs below never reach. *)

(** C1: the line [1.0<TAB>2.0<TAB>abc] has a time and a value that parse and
    a third field that does not; [from_file] prints the diagnostic, yet the
    time and the value stay in [t] and [v], and the container it returns has
    the row.  The docstring of [from_file] says such a row is not read. *)
Theorem C1_bad_third_field_row_is_kept :
  let line := tsv ["1.0"; "2.0"; "abc"] in
  let one := PyFloat.Finite false 10 (-1) in
  let two := PyFloat.Finite false 20 (-1) in
  let p : proc (plt_call PyFloat.pyfloat unit) := mkProc [] [] in
  startswith "#" line = false /\
  parses PyFloat.float line 0 = true /\
  parses PyFloat.float line 1 = true /\
  nth_error (fields line) 2 = Some "abc" /\
  parses PyFloat.float line 2 = false /\
  from_file PyFloat.float [line] (mk_locals [] [] []) p =
  (Ok (mk_VoltageData (mk_ndarray 2 [[one; two]])),
   mk_locals [one] [two] [],
   printed p (diagnostic 0 "could not convert string to float: 'abc'")).
Proof. repeat split. Qed.

(** C2: a container of 3 rows, built by the constructor; evaluating it at a
    time prints the diagnostic and then raises a [TypeError], where the
    operation was to return without raising.  [plot] asks for more than 3 rows
    before it evaluates, and [spline] returns [None] instead of raising;
    [__call__] calls that [None]. *)
Theorem C2_call_raises_on_three_rows :
  let f := PyFloat.of_nat in
  let c := mk_VoltageData (mk_ndarray 2 [[f 0; f 5]; [f 1; f 6]; [f 2; f 7]]) in
  let p : proc (plt_call PyFloat.pyfloat unit) := mkProc [] [] in
  __init__ [f 0; f 1; f 2] [f 5; f 6; f 7] None = Ok c /\
  num_rows c p = (Ok 3, c, p) /\
  __call__ (fun _ _ _ => Ok tt) (fun (_ : unit) q => Ok q) (Scalar (f 1)) c p =
  (Raise (TypeError "'NoneType' object is not callable"), c,
   printed p "Insufficient number of points (>3)").
Proof. repeat split. Qed.

(** C3 fails on the line [1.0]: it is no comment and has no value field; the
    loop drops it and prints nothing. *)
Lemma C3_missing_value_prints_nothing :
  let line := tsv ["1.0"] in
  let p : proc (plt_call PyFloat.pyfloat unit) := mkProc [] [] in
  startswith "#" line = false /\
  nth_error (fields line) 1 = None /\
  line_step PyFloat.float 0 line (mk_locals [] [] []) p =
  (Ok tt, mk_locals [] [] [], p) /\
  stdout (snd (line_step PyFloat.float 0 line (mk_locals [] [] []) p)) = [].
Proof. repeat split. Qed.

(** C3, as the code has it, on line 4 of a file: [abc<TAB>1.0] and [abc] alone
    are reported, [1.0] alone is dropped in silence. *)
Lemma C3_witness :
  let p : proc (plt_call PyFloat.pyfloat unit) := mkProc [] [] in
  let l := mk_locals [] [] [] in
  let rest := [tsv ["2.0"; "3.0"]] in
  startswith "#" (tsv ["abc"; "1.0"]) = false /\
  startswith "#" (tsv ["1.0"]) = false /\
  read_lines PyFloat.float 4 (tsv ["abc"; "1.0"] :: rest) l p =
  read_lines PyFloat.float 5 rest l
    (printed p (diagnostic 4 "could not convert string to float: 'abc'")) /\
  read_lines PyFloat.float 4 (tsv ["1.0"] :: rest) l p =
  read_lines PyFloat.float 5 rest l p /\
  read_lines PyFloat.float 4 (tsv ["abc"] :: rest) l p =
  read_lines PyFloat.float 5 rest l
    (printed p (diagnostic 4 "could not convert string to float: 'abc'")).
Proof.
  intros p l rest.
  assert (H1 : startswith "#" (tsv ["abc"; "1.0"]) = false) by reflexivity.
  assert (H2 : startswith "#" (tsv ["1.0"]) = false) by reflexivity.
  assert (H3 : startswith "#" (tsv ["abc"]) = false) by reflexivity.
  split; [exact H1 |]. split; [exact H2 |]. split; [| split].
  - apply (proj1 (C3_bad_time_or_value_is_skipped PyFloat.pyfloat PyFloat.float unit
                    4 (tsv ["abc"; "1.0"]) rest l p H1)).
    exists "abc". split; [reflexivity | left; reflexivity].
  - apply (proj1 (proj2 (C3_bad_time_or_value_is_skipped PyFloat.pyfloat PyFloat.float
                           unit 4 (tsv ["1.0"]) rest l p H2))).
    exists "1.0", (PyFloat.Finite false 10 (-1)). repeat split.
  - apply (proj1 (C3_bad_time_or_value_is_skipped PyFloat.pyfloat PyFloat.float unit
                    4 (tsv ["abc"]) rest l p H3)).
    exists "abc". split; [reflexivity | left; reflexivity].
Defined.

(** C4 on a container of 2 columns and on one of 3. *)
Lemma C4_witness :
  let f := PyFloat.of_nat in
  let c2 := mk_VoltageData (mk_ndarray 2 [[f 0; f 5]; [f 1; f 6]]) in
  let c3 := mk_VoltageData (mk_ndarray 3 [[f 0; f 5; f 8]; [f 1; f 6; f 9]]) in
  let p : proc (plt_call PyFloat.pyfloat unit) := mkProc [] [] in
  voltage_errs c2 p =
  (Raise (AttributeError "The optional column 'voltage_errs' is not present."), c2, p) /\
  exists col rows_n,
    voltage_errs c3 p = (Ok (Array1 col), c3, p) /\
    num_rows c3 p = (Ok rows_n, c3, p) /\
    length col = rows_n /\
    forall k r, nth_error (rows _ (_data _ c3)) k = Some r ->
                nth_error col k = nth_error r 2.
Proof.
  intros f c2 c3 p.
  assert (R2 : rectangular _ (_data _ c2)) by (repeat constructor).
  assert (R3 : rectangular _ (_data _ c3)) by (repeat constructor).
  split.
  - exact (proj1 (proj1 (C4_voltage_errs_attribute_error PyFloat.pyfloat unit c2 p 2
                           R2 eq_refl) eq_refl)).
  - exact (proj2 (C4_voltage_errs_attribute_error PyFloat.pyfloat unit c3 p 3
                    R3 eq_refl) eq_refl).
Defined.

(** C5 on a construction from two sequences and on a file of two lines with
    three fields each. *)
Lemma C5_witness :
  let f := PyFloat.of_nat in
  let c2 := mk_VoltageData (mk_ndarray 2 [[f 0; f 5]; [f 1; f 6]]) in
  let file := [tsv ["0.0"; "1.0"; "0.05"]; tsv ["1.0"; "2.0"; "0.05"]] in
  let q : proc (plt_call PyFloat.pyfloat unit) := mkProc [] [] in
  __init__ [f 0; f 1] [f 5; f 6] None = Ok c2 /\
  (exists n, num_columns c2 q = (Ok n, c2, q) /\ (n = 2 \/ n = 3) /\
             (n = 3 <-> @None (list PyFloat.pyfloat) <> None)) /\
  exists c l' p',
    from_file PyFloat.float file (mk_locals [] [] []) q = (Ok c, l', p') /\
    exists n, num_columns c q = (Ok n, c, q) /\ (n = 2 \/ n = 3) /\
              (n = 3 <-> exists line, In line file /\
                                      with_error PyFloat.float line = true).
Proof.
  intros f c2 file q.
  assert (H1 : __init__ [f 0; f 1] [f 5; f 6] None = Ok c2) by reflexivity.
  split; [exact H1 |]. split.
  - exact (proj1 (C5_column_count_two_or_three PyFloat.pyfloat PyFloat.float unit)
             _ _ _ c2 q H1).
  - eexists _, _, _.
    assert (H2 : from_file PyFloat.float file (mk_locals [] [] []) q =
                 (Ok _, _, _)) by reflexivity.
    split; [exact H2 |].
    exact (proj2 (C5_column_count_two_or_three PyFloat.pyfloat PyFloat.float unit)
             file _ _ q _ q _ H2).
Defined.

(** C6 on a container of 3 rows and no errors. *)
Lemma C6_witness :
  let f := PyFloat.of_nat in
  let c := mk_VoltageData (mk_ndarray 2 [[f 0; f 5]; [f 1; f 6]; [f 2; f 7]]) in
  let p : proc (plt_call PyFloat.pyfloat unit) := mkProc [] [] in
  num_rows c p = (Ok 3, c, p) /\ 3 < 4 /\
  spline (fun _ _ _ => Ok tt) c p =
  (@Ok (option unit) None, c, printed p "Insufficient number of points (>3)").
Proof.
  intros f c p.
  assert (Hn : num_rows c p = (Ok 3, c, p)) by reflexivity.
  assert (Hlt : 3 < 4) by lia.
  split; [exact Hn |]. split; [exact Hlt |].
  exact (C6_spline_none_with_few_rows PyFloat.pyfloat unit (fun _ _ _ => Ok tt)
           unit c p 3 Hn Hlt).
Defined.

(** C8 on a container of 2 rows and 3 columns. *)
Lemma C8_witness :
  let f := PyFloat.of_nat in
  let c := mk_VoltageData (mk_ndarray 3 [[f 0; f 5; f 8]; [f 1; f 6; f 9]]) in
  let p : proc (plt_call PyFloat.pyfloat unit) := mkProc [] [] in
  rectangular _ (_data _ c) /\
  exists yielded,
    iterate c p = (Ok yielded, c, p) /\
    yielded = [Array1 [f 0; f 5; f 8]; Array1 [f 1; f 6; f 9]] /\
    num_rows c p = (Ok (length yielded), c, p) /\
    (forall row, In row yielded ->
       exists cells, row = Array1 cells /\
                     num_columns c p = (Ok (length cells), c, p)) /\
    (a <- iterate ;; b <- iterate ;; ret (a, b)) c p = (Ok (yielded, yielded), c, p).
Proof.
  intros f c p.
  assert (R : rectangular _ (_data _ c)) by (repeat constructor).
  split; [exact R |].
  exact (C8_iteration_yields_the_rows PyFloat.pyfloat unit c p R).
Defined.

(** C9 on a file with a comment, a blank line, a line without value, a line
    whose time is no number, and two good lines. *)
Lemma C9_witness :
  let file := [ "# time and voltage" ++ newline; newline; tsv ["7.0"]; tsv ["abc"; "1.0"];
                tsv ["0.0"; "1.0"]; tsv ["1.0"; "2.5"] ] in
  let p : proc (plt_call PyFloat.pyfloat unit) := mkProc [] [] in
  exists c l' p',
    from_file PyFloat.float file (mk_locals [] [] []) p = (Ok c, l', p') /\
    length (filter (retained PyFloat.float) file) = 2 /\
    num_rows c p = (Ok 2, c, p).
Proof.
  intros file p. eexists _, _, _.
  assert (H : from_file PyFloat.float file (mk_locals [] [] []) p = (Ok _, _, _))
    by reflexivity.
  split; [exact H |]. split; [reflexivity |].
  exact (C9_from_file_row_count PyFloat.pyfloat PyFloat.float unit file _ _ p _ p _ H).
Defined.

(** C10 on a file whose first line has an error field and whose second has
    none. *)
Lemma C10_witness :
  let file := [tsv ["0.0"; "1.0"; "0.05"]; tsv ["1.0"; "2.0"]] in
  let p : proc (plt_call PyFloat.pyfloat unit) := mkProc [] [] in
  (exists line, In line file /\ with_error PyFloat.float line = true) /\
  (exists line, In line file /\ without_error PyFloat.float line = true) /\
  exists l' p' m,
    read_lines PyFloat.float 0 file (mk_locals [] [] []) p = (Ok tt, l', p') /\
    0 < length (dv _ l') < length (t _ l') /\
    __init__ (t _ l') (v _ l') (Some (dv _ l')) = Raise (ValueError m) /\
    from_file PyFloat.float file (mk_locals [] [] []) p = (Raise (ValueError m), l', p').
Proof.
  intros file p.
  assert (H1 : exists line, In line file /\ with_error PyFloat.float line = true).
  { exists (tsv ["0.0"; "1.0"; "0.05"]). split; [now left | reflexivity]. }
  assert (H2 : exists line, In line file /\ without_error PyFloat.float line = true).
  { exists (tsv ["1.0"; "2.0"]). split; [right; now left | reflexivity]. }
  split; [exact H1 |]. split; [exact H2 |].
  exact (C10_partial_errors_raise PyFloat.pyfloat PyFloat.float unit file
           (mk_locals [] [] []) p H1 H2).
Defined.

(** ** Further properties on concrete inputs *)

Arguments lengths_agree {F} times voltages errs.
Arguments table_of {F} times voltages errs.
Arguments rectangular {F} a.
Arguments good_row {F} float w r.
Arguments line_of {F} r.
Arguments uniform {F} float file.
Arguments non_numeric {F} float line m.
Arguments timestamps {F Axes} _ _.
Arguments voltages {F Axes} _ _.
Arguments __getitem__ {F Axes} ix _ _.
Arguments plot {F Spline} InterpolatedUnivariateSpline spline_call {Axes} ax fmt _ _.
Arguments __repr__ {F} format {Axes} _ _.
Arguments __str__ {F} format {Axes} _ _.
Arguments Array2 {F} a.
Arguments AVal {F} x.
Arguments AInt {F} n.
Arguments plt_plot {F Axes} x y fmt label.
Arguments plt_legend {F Axes}.
Arguments plot_target {F Axes} ax.
Arguments plot_result {Axes} ax.
Arguments plot_decorations {F Axes}.
Arguments str_line {F} show i r.

(** X1 on two times, two voltages and two errors. *)
Lemma X1_witness :
  let f := PyFloat.of_nat in
  let c := mk_VoltageData (mk_ndarray 3 [[f 0; f 5; f 8]; [f 1; f 6; f 9]]) in
  let p : proc (plt_call PyFloat.pyfloat unit) := mkProc [] [] in
  lengths_agree [f 0; f 1] [f 5; f 6] (Some [f 8; f 9]) /\
  __init__ [f 0; f 1] [f 5; f 6] (Some [f 8; f 9]) = Ok c /\
  num_rows c p = (Ok 2, c, p) /\
  num_columns c p = (Ok 3, c, p) /\
  rectangular (_data _ c).
Proof.
  intros f c p.
  assert (H : lengths_agree [f 0; f 1] [f 5; f 6] (Some [f 8; f 9]))
    by (split; reflexivity).
  split; [exact H |].
  exact (X1_init_stores_the_rows PyFloat.pyfloat unit _ _ _ p H).
Defined.

(** X2 on two times and one voltage. *)
Lemma X2_witness :
  let f := PyFloat.of_nat in
  ~ lengths_agree [f 0; f 1] [f 5] None /\
  exists m, __init__ [f 0; f 1] [f 5] None = Raise (ValueError m).
Proof.
  intros f.
  assert (H : ~ lengths_agree [f 0; f 1] [f 5] None).
  { intros [Hlen _]. discriminate Hlen. }
  split; [exact H |].
  exact (proj2 (X2_init_raises_iff_lengths_differ PyFloat.pyfloat _ _ _) H).
Defined.

(** X3 and X4 on a container with errors. *)
Lemma X3_witness :
  let f := PyFloat.of_nat in
  let c := mk_VoltageData (mk_ndarray 3 [[f 0; f 5; f 8]; [f 1; f 6; f 9]]) in
  let p : proc (plt_call PyFloat.pyfloat unit) := mkProc [] [] in
  __init__ [f 0; f 1] [f 5; f 6] (Some [f 8; f 9]) = Ok c /\
  timestamps c p = (Ok (Array1 [f 0; f 1]), c, p) /\
  voltages c p = (Ok (Array1 [f 5; f 6]), c, p) /\
  forall e, Some [f 8; f 9] = Some e -> voltage_errs c p = (Ok (Array1 e), c, p).
Proof.
  intros f c p.
  assert (H : __init__ [f 0; f 1] [f 5; f 6] (Some [f 8; f 9]) = Ok c) by reflexivity.
  split; [exact H |].
  exact (X3_accessors_return_the_inputs PyFloat.pyfloat unit _ _ _ c p H).
Defined.

Lemma X4_witness :
  let f := PyFloat.of_nat in
  let c := mk_VoltageData (mk_ndarray 3 [[f 0; f 5; f 8]; [f 1; f 6; f 9]]) in
  let p : proc (plt_call PyFloat.pyfloat unit) := mkProc [] [] in
  __init__ [f 0; f 1] [f 5; f 6] (Some [f 8; f 9]) = Ok c /\
  __getitem__ (Index2 (Int 1) (Int 0)) c p = (Ok (Scalar (f 1)), c, p) /\
  __getitem__ (Index2 (Int 1) (Int 1)) c p = (Ok (Scalar (f 6)), c, p) /\
  forall e z, Some [f 8; f 9] = Some e -> nth_error e 1 = Some z ->
    __getitem__ (Index2 (Int 1) (Int 2)) c p = (Ok (Scalar z), c, p).
Proof.
  intros f c p.
  assert (H : __init__ [f 0; f 1] [f 5; f 6] (Some [f 8; f 9]) = Ok c) by reflexivity.
  split; [exact H |].
  exact (X4_cells_are_co_indexed PyFloat.pyfloat unit _ _ _ c p 1 (f 1) (f 6)
           H eq_refl eq_refl).
Defined.


(** X6 on a container of 3 rows and 3 columns: [c[1:, :2]]. *)
Lemma X6_witness :
  let f := PyFloat.of_nat in
  let c := mk_VoltageData
             (mk_ndarray 3 [[f 0; f 5; f 8]; [f 1; f 6; f 9]; [f 2; f 7; f 4]]) in
  let p : proc (plt_call PyFloat.pyfloat unit) := mkProc [] [] in
  let sub := mk_ndarray 2 [[f 1; f 6]; [f 2; f 7]] in
  rectangular (_data _ c) /\
  __getitem__ (Index2 (Slice (Some 1%Z) None None) (Slice None (Some 2%Z) None)) c p =
  (Ok (Array2 sub), c, p) /\
  shape _ sub = (2, 2) /\
  rectangular sub.
Proof.
  intros f c p sub.
  assert (R : rectangular (_data _ c)) by (repeat constructor).
  split; [exact R |].
  refine (X6_slice_is_the_sub_table PyFloat.pyfloat unit c p (Some 1) None None
            (Some 2) R _ _ _ _); cbn; lia.
Defined.

(** X7 and X9 on a container of 4 points; X8 on one of 3.  The stand-in for
    scipy returns a token for the spline and the query for its value. *)
Lemma X7_witness :
  let f := PyFloat.of_nat in
  let ts := [f 0; f 1; f 2; f 3] in
  let vs := [f 5; f 6; f 7; f 4] in
  let c := mk_VoltageData (mk_ndarray 2 [[f 0; f 5]; [f 1; f 6]; [f 2; f 7]; [f 3; f 4]]) in
  let p : proc (plt_call PyFloat.pyfloat unit) := mkProc [] [] in
  __init__ ts vs None = Ok c /\ 3 < length ts /\
  spline (fun _ _ _ => Ok tt) c p = (Ok (Some tt), c, p) /\
  __call__ (fun _ _ _ => Ok tt) (fun (_ : unit) q => Ok q) (Scalar (f 1)) c p =
  (Ok (Scalar (f 1)), c, p).
Proof.
  intros f ts vs c p.
  assert (H : __init__ ts vs None = Ok c) by reflexivity.
  assert (Hlen : 3 < length ts) by (cbn; lia).
  split; [exact H |]. split; [exact Hlen |].
  exact (X7_spline_uses_times_and_voltages PyFloat.pyfloat unit (fun _ _ _ => Ok tt)
           (fun _ q => Ok q) unit ts vs None c p (Scalar (f 1)) H Hlen).
Defined.

Lemma X8_witness :
  let f := PyFloat.of_nat in
  let ts := [f 0; f 1; f 2] in
  let vs := [f 5; f 6; f 7] in
  let c := mk_VoltageData (mk_ndarray 2 [[f 0; f 5]; [f 1; f 6]; [f 2; f 7]]) in
  let p : proc (plt_call PyFloat.pyfloat unit) := mkProc [] [] in
  __init__ ts vs None = Ok c /\ length ts <= 3 /\
  plot (fun _ _ _ => Ok tt) (fun (_ : unit) q => Ok q) None "bo" c p =
  (Ok (NewFigure unit "voltage_vs_time"), c,
   mkProc []
     [plt_figure _ _ "voltage_vs_time";
      plt_plot (Array1 ts) (Array1 vs) (Some "bo") None;
      plt_title _ _ "Voltage vs time"; plt_xlabel _ _ "Time [s]";
      plt_ylabel _ _ "Voltage [mV]"; plt_grid _ _ true]).
Proof.
  intros f ts vs c p.
  assert (H : __init__ ts vs None = Ok c) by reflexivity.
  assert (Hlen : length ts <= 3) by (cbn; lia).
  split; [exact H |]. split; [exact Hlen |].
  exact (X8_plot_few_points PyFloat.pyfloat unit (fun _ _ _ => Ok tt)
           (fun _ q => Ok q) unit ts vs None c p None "bo" H Hlen).
Defined.

Lemma X9_witness :
  let f := PyFloat.of_nat in
  let ts := [f 0; f 1; f 2; f 3] in
  let vs := [f 5; f 6; f 7; f 4] in
  let c := mk_VoltageData (mk_ndarray 2 [[f 0; f 5]; [f 1; f 6]; [f 2; f 7]; [f 3; f 4]]) in
  let p : proc (plt_call PyFloat.pyfloat unit) := mkProc [] [] in
  __init__ ts vs None = Ok c /\ 3 < length ts /\
  plot (fun _ _ _ => Ok tt) (fun (_ : unit) q => Ok q) None "bo" c p =
  (Ok (NewFigure unit "voltage_vs_time"), c,
   mkProc []
     [plt_figure _ _ "voltage_vs_time";
      plt_plot (Array1 ts) (Array1 vs) (Some "bo") None;
      plt_plot (Array1 ts) (Array1 ts) None (Some "Cubic spline");
      plt_legend;
      plt_title _ _ "Voltage vs time"; plt_xlabel _ _ "Time [s]";
      plt_ylabel _ _ "Voltage [mV]"; plt_grid _ _ true]).
Proof.
  intros f ts vs c p.
  assert (H : __init__ ts vs None = Ok c) by reflexivity.
  assert (Hlen : 3 < length ts) by (cbn; lia).
  split; [exact H |]. split; [exact Hlen |].
  exact (X9_plot_with_spline PyFloat.pyfloat unit (fun _ _ _ => Ok tt)
           (fun _ q => Ok q) unit ts vs None c p None "bo" tt (Array1 ts)
           H Hlen eq_refl eq_refl).
Defined.

(** X10 and X11 with a [format] that renders a cell by [PyFloat.show] followed
    by the format specification, and an [int] in decimal. *)
Lemma X10_witness :
  let f := PyFloat.of_nat in
  let c := mk_VoltageData (mk_ndarray 2 [[f 0; f 5]; [f 1; f 6]]) in
  let p : proc (plt_call PyFloat.pyfloat unit) := mkProc [] [] in
  let render := fun (spec : string) (a : pyarg PyFloat.pyfloat) =>
    match a with
    | AVal (Scalar x) => PyFloat.show x ++ spec
    | AInt n => str_nat n
    | _ => EmptyString
    end in
  rectangular (_data _ c) /\
  __repr__ (fun spec a => Ok (render spec a)) c p =
  (Ok ("0e0 5e0" ++ newline ++ "1e0 6e0"), c, p).
Proof.
  intros f c p render.
  assert (R : rectangular (_data _ c)) by (repeat constructor).
  split; [exact R |].
  exact (X10_repr_lines PyFloat.pyfloat (fun spec a => Ok (render spec a)) unit
           (fun x => render "" (AVal (Scalar x))) c p R (fun x => eq_refl)).
Defined.


(** X12 on a file whose two retained lines both have an error field, and on
    one where only the first has. *)
Lemma X12_witness :
  let good := [tsv ["0.0"; "1.0"; "0.05"]; "# note" ++ newline; tsv ["1.0"; "2.0"; "0.05"]] in
  let mixed := [tsv ["0.0"; "1.0"; "0.05"]; tsv ["1.0"; "2.0"]] in
  let p : proc (plt_call PyFloat.pyfloat unit) := mkProc [] [] in
  let l := mk_locals [] [] [] in
  uniform PyFloat.float good /\
  (exists c l' p', from_file PyFloat.float good l p = (Ok c, l', p')) /\
  ~ uniform PyFloat.float mixed /\
  (exists m l' p', from_file PyFloat.float mixed l p = (Raise (ValueError m), l', p')).
Proof.
  intros good mixed p l.
  assert (Hgood : uniform PyFloat.float good).
  { left. intros line [<- | [<- | [<- | []]]] Hr; try reflexivity. discriminate Hr. }
  assert (Hmixed : ~ uniform PyFloat.float mixed).
  { intros [H | H].
    - specialize (H (tsv ["1.0"; "2.0"]) (or_intror (or_introl eq_refl)) eq_refl).
      discriminate H.
    - specialize (H (tsv ["0.0"; "1.0"; "0.05"]) (or_introl eq_refl) eq_refl).
      discriminate H. }
  split; [exact Hgood |]. split; [| split; [exact Hmixed |]].
  - exact (proj2 (proj1 (X12_from_file_returns_iff_uniform PyFloat.pyfloat
                           PyFloat.float unit good l p)) Hgood).
  - exact (proj2 (X12_from_file_returns_iff_uniform PyFloat.pyfloat PyFloat.float
                    unit mixed l p) Hmixed).
Defined.

(** X14 on a table of two rows and three columns. *)
Lemma X14_witness :
  let table :=
    [[("0.0", PyFloat.Finite false 0 (-1)); ("1.0", PyFloat.Finite false 10 (-1));
      ("0.05", PyFloat.Finite false 5 (-2))];
     [("1.0", PyFloat.Finite false 10 (-1)); ("2.5", PyFloat.Finite false 25 (-1));
      ("0.05", PyFloat.Finite false 5 (-2))]] in
  let p : proc (plt_call PyFloat.pyfloat unit) := mkProc [] [] in
  Forall (good_row PyFloat.float 3) table /\
  exists l',
    from_file PyFloat.float [tsv ["0.0"; "1.0"; "0.05"]; tsv ["1.0"; "2.5"; "0.05"]]
      (mk_locals [] [] []) p =
    (Ok (mk_VoltageData (mk_ndarray 3 (map (map snd) table))), l', p).
Proof.
  intros table p.
  assert (H : Forall (good_row PyFloat.float 3) table).
  { repeat constructor. }
  split; [exact H |].
  exact (X14_well_formed_file_is_read_back PyFloat.pyfloat PyFloat.float unit 3 table
           (mk_locals [] [] []) p (or_intror eq_refl)
           (fun E => nil_cons (eq_sym E)) H).
Defined.

(** X15: the bad line is the third of the file, after a comment and a good
    line, so it is reported as line 2. *)
Lemma X15_witness :
  let pre := ["# note" ++ newline; tsv ["1.0"; "2.0"]] in
  let line := tsv ["abc"; "1.0"] in
  let m := "could not convert string to float: 'abc'" in
  let p : proc (plt_call PyFloat.pyfloat unit) := mkProc [] [] in
  startswith "#" line = false /\
  non_numeric PyFloat.float line m /\
  In (diagnostic 2 m ++ newline)
     (stdout (snd (from_file PyFloat.float (pre ++ line :: []) (mk_locals [] [] []) p))).
Proof.
  intros pre line m p.
  assert (H1 : startswith "#" line = false) by reflexivity.
  assert (H2 : non_numeric PyFloat.float line m).
  { exists "abc". split; [reflexivity | left; reflexivity]. }
  split; [exact H1 |]. split; [exact H2 |].
  exact (X15_diagnostic_names_the_line PyFloat.pyfloat PyFloat.float unit pre []
           line m (mk_locals [] [] []) p H1 (or_introl H2)).
Defined.

(** X16 on a line of two blanks and a line terminator. *)
Lemma X16_witness :
  let line := "  " ++ newline in
  let p : proc (plt_call PyFloat.pyfloat unit) := mkProc [] [] in
  blank line = true /\
  fields line = [EmptyString] /\
  line_step PyFloat.float 7 line (mk_locals [] [] []) p =
  (Ok tt, mk_locals [] [] [],
   printed p (diagnostic 7 "could not convert string to float: ''")).
Proof.
  intros line p.
  assert (H : blank line = true) by reflexivity.
  split; [exact H |].
  exact (X16_blank_line_is_reported PyFloat.pyfloat PyFloat.float unit 7 line
           (mk_locals [] [] []) p H).
Defined.

(** X17 on a line that starts with a tab: [2.0] is read as the time. *)
Lemma X17_witness :
  let line := tsv ["2.0"; "3.0"] in
  let p : proc (plt_call PyFloat.pyfloat unit) := mkProc [] [] in
  isspace tab = true /\ startswith "#" line = false /\
  fields (String tab line) = ["2.0"; "3.0"] /\
  line_step PyFloat.float 0 (String tab line) (mk_locals [] [] []) p =
  (Ok tt, mk_locals [PyFloat.Finite false 20 (-1)] [PyFloat.Finite false 30 (-1)] [], p).
Proof.
  intros line p.
  assert (H1 : isspace tab = true) by reflexivity.
  assert (H2 : startswith "#" line = false) by reflexivity.
  split; [exact H1 |]. split; [exact H2 |].
  exact (X17_leading_white_space_is_dropped PyFloat.pyfloat PyFloat.float unit tab 0
           line (mk_locals [] [] []) p H1 H2).
Defined.

(** X18 on a line with an empty error field: a tab after the value. *)
Lemma X18_witness :
  let cells := ["1.0"; "2.0"] in
  let pad := String tab newline in
  let p : proc (plt_call PyFloat.pyfloat unit) := mkProc [] [] in
  cells <> [] /\ Forall (fun s => clean s = true) cells /\ blank pad = true /\
  tsv ["1.0"; "2.0"; ""] = join (String tab "") cells ++ pad /\
  fields (tsv ["1.0"; "2.0"; ""]) = cells /\
  line_step PyFloat.float 0 (tsv ["1.0"; "2.0"; ""]) (mk_locals [] [] []) p =
  line_step PyFloat.float 0 (tsv cells) (mk_locals [] [] []) p.
Proof.
  intros cells pad p.
  assert (H1 : cells <> []) by discriminate.
  assert (H2 : Forall (fun s => clean s = true) cells) by (repeat constructor).
  assert (H3 : blank pad = true) by reflexivity.
  split; [exact H1 |]. split; [exact H2 |]. split; [exact H3 |].
  split; [reflexivity |].
  exact (X18_trailing_white_space_is_dropped PyFloat.pyfloat PyFloat.float unit cells
           pad 0 (mk_locals [] [] []) p H1 H2 H3).
Defined.

(** X19 on a line with a fourth field. *)
Lemma X19_witness :
  let line1 := tsv ["1.0"; "2.0"; "0.5"; "junk"] in
  let line2 := tsv ["1.0"; "2.0"; "0.5"] in
  let p : proc (plt_call PyFloat.pyfloat unit) := mkProc [] [] in
  startswith "#" line1 = startswith "#" line2 /\
  firstn 3 (fields line1) = firstn 3 (fields line2) /\
  line_step PyFloat.float 0 line1 (mk_locals [] [] []) p =
  line_step PyFloat.float 0 line2 (mk_locals [] [] []) p.
Proof.
  intros line1 line2 p.
  assert (H1 : startswith "#" line1 = startswith "#" line2) by reflexivity.
  assert (H2 : firstn 3 (fields line1) = firstn 3 (fields line2)) by reflexivity.
  split; [exact H1 |]. split; [exact H2 |].
  exact (X19_fields_after_the_third_are_ignored PyFloat.pyfloat PyFloat.float unit 0
           line1 line2 (mk_locals [] [] []) p H1 H2).
Defined.
